(** * yeti: a small ORM over sqlite3 -- shallow embedding of [yeti.py]

    The development follows the source file top to bottom: Python values,
    ordered dictionaries, the [Database] singleton, the [Field] classes,
    the [ModelClass] metaclass and the [Model] operations.  The sqlite3
    engine is an interface ([Sqlite3]); every statement the program sends
    to it is recorded in a trace. *)

From Stdlib Require Import List String Ascii ZArith Bool Lia.
From Stdlib Require Import DecimalString.
Import ListNotations.
Open Scope string_scope.
Open Scope Z_scope.

Set Implicit Arguments.

(** ** Exceptions and results *)

Inductive exn : Type :=
| Exception (msg : string)
| TypeError
| KeyError (key : string)
| AttributeError
| OverflowError
| ValueError
| IntegrityError (msg : string)      (* sqlite3.IntegrityError *)
| DatabaseError (msg : string).      (* any other sqlite3.Error *)

Inductive result (A : Type) : Type :=
| Ok (a : A)
| Raise (e : exn).
Arguments Ok {A} a.
Arguments Raise {A} e.

(** ** Ordered dictionaries

    [dict] and [OrderedDict] keep insertion order; assigning to a key that
    is already present replaces the value in place. *)

Section Dict.
Variable A : Type.

Fixpoint dict_get (d : list (string * A)) (key : string) : option A :=
  match d with
  | [] => None
  | (k, a) :: rest => if String.eqb k key then Some a else dict_get rest key
  end.

Definition dict_mem (key : string) (d : list (string * A)) : bool :=
  match dict_get d key with Some _ => true | None => false end.

Fixpoint dict_set (d : list (string * A)) (key : string) (a : A)
  : list (string * A) :=
  match d with
  | [] => [(key, a)]
  | (k, x) :: rest =>
      if String.eqb k key then (k, a) :: rest
      else (k, x) :: dict_set rest key a
  end.

Definition dict_of_items (items : list (string * A)) : list (string * A) :=
  fold_left (fun d kv => dict_set d (fst kv) (snd kv)) items [].

Definition keys (d : list (string * A)) : list string := map fst d.
End Dict.

(** [d[key]] followed by a use of the value, in continuation form; the
    continuation is a section variable so that a recursive function may
    pass itself. *)
Section Getitem.
Variables A B : Type.
Variable found : A -> B.
Variable missing : B.
Variable key : string.

Fixpoint dict_getitem_then (d : list (string * A)) : B :=
  match d with
  | [] => missing
  | (k, a) :: rest =>
      if String.eqb k key then found a else dict_getitem_then rest
  end.
End Getitem.

(** ** Strings *)

Fixpoint join (sep : string) (l : list string) : string :=
  match l with
  | [] => ""
  | [s] => s
  | s :: rest => s ++ sep ++ join sep rest
  end.

(** [s.replace(old, new)] for a one-character [old]. *)
Fixpoint replace (old : ascii) (new : string) (s : string) : string :=
  match s with
  | EmptyString => EmptyString
  | String c rest =>
      if Ascii.eqb c old then new ++ replace old new rest
      else String c (replace old new rest)
  end.

(** [str(n)] and ['%d' % n] for an [int]. *)
Definition str_int (n : Z) : string := NilZero.string_of_int (Z.to_int n).

(** ** Python values

    The values a field can hold: what sqlite3 hands back ([None], [int],
    [float], [str]) and [Model] instances.  A float is carried by the two
    renderings the program asks of it, [str(x)] and [int(x)]. *)

Inductive pyfloat : Type :=
| Finite (str : string) (trunc : Z)
| Inf (negative : bool)
| NaN.

Inductive atom : Type :=
| ANone
| AInt (n : Z)
| AFloat (x : pyfloat)
| AStr (s : string).

(** ** Fields, models, records

    A field carries the attributes its constructor and [ModelClass] set:
    [name], [unique], [null], and [autoincrement] or [bind_model].  A
    foreign key holds the bound class itself, which exists before the
    class that declares the key, so classes form a tree.

    A [Model] instance is its class and the two attributes [__init__]
    assigns, [field_dict] and [_new].  Attribute assignment is not routed
    through [__setattr__] here, so a schema declaring a field under one of
    the names [field_dict], [_new] or [self] is outside this model.  Every
    declared field is its own object: one [Field] object bound to two
    names is outside it as well. *)

Inductive field : Type :=
| TextField (name : string) (unique null : bool)
| IntegerField (name : string) (unique null : bool)
| RealField (name : string) (unique null : bool)
| PrimaryKey (name : string) (autoincrement : bool)
| ForeignKey (bind_model : model) (name : string) (unique null : bool)
with model : Type :=
| ModelCls (_name : string) (fields : list (string * field)).

Inductive pyval : Type :=
| Atom (a : atom)
| Obj (r : record)
with record : Type :=
| Instance (cls : model) (field_dict : list (string * pyval)) (_new : bool).

Definition _name (m : model) : string :=
  match m with ModelCls n _ => n end.
Definition fields (m : model) : list (string * field) :=
  match m with ModelCls _ fs => fs end.

Definition cls (r : record) : model :=
  match r with Instance c _ _ => c end.
Definition field_dict (r : record) : list (string * pyval) :=
  match r with Instance _ d _ => d end.
Definition _new (r : record) : bool :=
  match r with Instance _ _ n => n end.

Definition name (f : field) : string :=
  match f with
  | TextField n _ _ | IntegerField n _ _ | RealField n _ _
  | PrimaryKey n _ | ForeignKey _ n _ _ => n
  end.

(** [PrimaryKey.__init__] calls [super().__init__(self)] without keyword
    arguments, so a primary key has the defaults [unique=False],
    [null=True]. *)
Definition unique (f : field) : bool :=
  match f with
  | TextField _ u _ | IntegerField _ u _ | RealField _ u _
  | ForeignKey _ _ u _ => u
  | PrimaryKey _ _ => false
  end.

Definition null (f : field) : bool :=
  match f with
  | TextField _ _ n | IntegerField _ _ n | RealField _ _ n
  | ForeignKey _ _ _ n => n
  | PrimaryKey _ _ => true
  end.

Definition __sqlite_field_name__ (f : field) : string :=
  match f with
  | TextField _ _ _ => "TEXT"
  | IntegerField _ _ _ => "INTEGER"
  | RealField _ _ _ => "REAL"
  | PrimaryKey _ _ => "INTEGER PRIMARY KEY"
  | ForeignKey _ _ _ _ => "INTEGER"
  end.

(** ** The sqlite3 engine and the world

    The engine is opaque: a connection state [C] and the four calls the
    program makes.  A cursor's [execute] hands back [description] (column
    names) and the rows the fetch calls will read. *)

Class Sqlite3 (C : Type) : Type := {
  connect : string -> result C;
  connection_execute : string -> C -> result unit * C;
  cursor_execute : string -> C -> result (list string * list (list atom)) * C;
  connection_commit : C -> result unit * C
}.

Inductive event : Type :=
| Log (level msg : string)
| ConnExecute (sql : string)
| CursorExecute (sql : string)
| ConnCommit.

(** The [Database] object.  [connection] is absent when [sqlite3.connect]
    raised in [__init__]. *)
Record database (C : Type) : Type := mkDatabase {
  db_name : string;
  models : list (string * model);
  connection : option C
}.

Record world (C : Type) : Type := mkWorld {
  db : database C;          (* the instance the models are bound to *)
  trace : list event        (* logging and engine calls, oldest first *)
}.

(** ** The monad: world passing with exceptions *)

Definition M (C A : Type) : Type := world C -> result A * world C.

Definition ret {C A} (a : A) : M C A := fun w => (Ok a, w).
Definition raise {C A} (e : exn) : M C A := fun w => (Raise e, w).
Definition bind {C A B} (m : M C A) (k : A -> M C B) : M C B :=
  fun w => match m w with
           | (Ok a, w') => k a w'
           | (Raise e, w') => (Raise e, w')
           end.
Definition lift {C A} (r : result A) : M C A := fun w => (r, w).
Definition emit {C} (e : event) : M C unit :=
  fun w => (Ok tt, mkWorld (db w) (trace w ++ [e])).

Declare Scope monad_scope.
Delimit Scope monad_scope with M.
Notation "x <- m ;; k" := (bind m (fun x => k))
  (at level 61, m at next level, right associativity) : monad_scope.
Notation "m ;; k" := (bind m (fun _ => k))
  (at level 61, right associativity) : monad_scope.
Open Scope monad_scope.

Definition logging_debug {C} (msg : string) : M C unit := emit (Log "DEBUG" msg).
Definition logging_error {C} (msg : string) : M C unit := emit (Log "ERROR" msg).

(** [str(e)] for the exceptions that carry a message. *)
Definition str_exn (e : exn) : string :=
  match e with
  | Exception m | IntegrityError m | DatabaseError m => m
  | KeyError k => "'" ++ k ++ "'"
  | _ => ""
  end.

(** ** Rendering values *)

Definition str_float (x : pyfloat) : string :=
  match x with
  | Finite s _ => s
  | Inf false => "inf"
  | Inf true => "-inf"
  | NaN => "nan"
  end.

(** [str(a)] *)
Definition str_atom (a : atom) : string :=
  match a with
  | ANone => "None"
  | AInt n => str_int n
  | AFloat x => str_float x
  | AStr s => s
  end.

Section Rendering.
(** [repr] of a [str] (quoting and escaping) is a Python built-in, taken
    as given. *)
Variable repr_str : string -> string.

Definition repr_atom (a : atom) : string :=
  match a with
  | AStr s => repr_str s
  | _ => str_atom a
  end.

(** [Model.__repr__] is [self.field_dict.__repr__()]. *)
Fixpoint repr (v : pyval) : string :=
  match v with
  | Atom a => repr_atom a
  | Obj r =>
      match r with
      | Instance _ d _ =>
          "{" ++ join ", "
            ((fix items (d : list (string * pyval)) : list string :=
                match d with
                | [] => []
                | (k, x) :: rest => (repr_str k ++ ": " ++ repr x) :: items rest
                end) d) ++ "}"
      end
  end.

(** [str(v)], also what [%s] formats. *)
Definition str (v : pyval) : string :=
  match v with
  | Atom a => str_atom a
  | Obj _ => repr v
  end.
End Rendering.

(** ['%d' % v] *)
Definition format_d (v : pyval) : result string :=
  match v with
  | Atom (AInt n) => Ok (str_int n)
  | Atom (AFloat (Finite _ t)) => Ok (str_int t)
  | Atom (AFloat (Inf _)) => Raise OverflowError
  | Atom (AFloat NaN) => Raise ValueError
  | _ => Raise TypeError
  end.

(** [sep.join(l)] raises [TypeError] unless every item is a [str]. *)
Fixpoint as_strs (l : list pyval) : result (list string) :=
  match l with
  | [] => Ok []
  | Atom (AStr s) :: rest =>
      match as_strs rest with
      | Ok ss => Ok (s :: ss)
      | Raise e => Raise e
      end
  | _ :: _ => Raise TypeError
  end.

Definition join_values (sep : string) (l : list pyval) : result string :=
  match as_strs l with
  | Ok ss => Ok (join sep ss)
  | Raise e => Raise e
  end.

(** ** class Database *)

Section Yeti.
Context {C : Type} {engine : Sqlite3 C}.
Variable repr_str : string -> string.

(** [Database(name)]: [__new__], then [__init__] on the object it
    returned.  The class attribute [instance] is passed explicitly;
    [None] stands for [not hasattr(cls, 'instance')].  The result is the
    outcome, the class attribute afterwards and the log lines written. *)
Definition Database_call (name : option string) (instance : option (database C))
  : result (database C) * option (database C) * list event :=
  match name with
  | None =>
      match instance with
      | None =>
          (Raise (Exception
             "Database not set. Please, set the database name before defining the models"),
           None, [])
      | Some d => (Ok d, Some d, [])
      end
  | Some n =>
      match connect n with
      | Ok c =>
          let d := mkDatabase n [] (Some c) in
          (Ok d, Some d, [Log "DEBUG" ("Connecting to " ++ n)])
      | Raise e => (Raise e, Some (mkDatabase n [] None), [])
      end
  end.

(** Engine calls go through [self.connection]. *)
Definition connection_attr : M C C :=
  fun w => match connection (db w) with
           | Some c => (Ok c, w)
           | None => (Raise AttributeError, w)
           end.

Definition engine_call {A} (ev : event) (f : C -> result A * C) : M C A :=
  fun w => match connection (db w) with
           | Some c =>
               let (r, c') := f c in
               (r, mkWorld (mkDatabase (db_name (db w)) (models (db w)) (Some c'))
                           (trace w ++ [ev]))
           | None => (Raise AttributeError, w)
           end.

Definition Database_execute (sql : string) : M C unit :=
  logging_debug sql ;;
  engine_call (ConnExecute sql) (connection_execute sql).

Definition Database_commit : M C unit :=
  self <- (fun w => (Ok (db w), w)) ;;
  logging_debug ("Commiting db " ++ db_name self) ;;
  engine_call ConnCommit connection_commit.

(** ** class Field and its subclasses *)

Definition Field__get_sqlite_def__ (f : field) : string :=
  let sql_part := name f ++ " " in
  let sql_part := sql_part ++ __sqlite_field_name__ f in
  let sql_part := if negb (null f) then sql_part ++ " NOT NULL" else sql_part in
  let sql_part := if unique f then sql_part ++ " UNIQUE" else sql_part in
  sql_part.

Definition __get_sqlite_def__ (f : field) : string :=
  match f with
  | PrimaryKey _ autoincrement =>
      let x := Field__get_sqlite_def__ f in
      if autoincrement then x ++ " AUTOINCREMENT" else x
  | _ => Field__get_sqlite_def__ f
  end.

Definition validate (f : field) (v : pyval) : bool :=
  match f with
  | TextField _ _ _ =>
      match v with Atom (AStr _) => true | _ => false end
  | _ => true
  end.

(** [Model.__getitem__] *)
Definition Model__getitem__ (self : record) (item : string) : pyval :=
  match dict_get (field_dict self) item with
  | Some v => v
  | None => Atom ANone
  end.

(** [prepare]: [TextField] quotes, [ForeignKey] renders the bound
    record's id, the others hand the value back as it is.  A value
    without a [replace] method fails: [AttributeError] for built-in
    values; on a [Model] instance [__getattr__] answers with a value that
    is not callable, a [TypeError]. *)
Definition prepare (f : field) (v : pyval) : result pyval :=
  match f with
  | TextField _ _ _ =>
      match v with
      | Atom (AStr s) =>
          let value_escaped := replace "'"%char "''" s in
          Ok (Atom (AStr ("'" ++ value_escaped ++ "'")))
      | Atom _ => Raise AttributeError
      | Obj _ => Raise TypeError
      end
  | ForeignKey _ _ _ _ =>
      match v with
      | Obj bind_model =>
          match format_d (Model__getitem__ bind_model "id") with
          | Ok s => Ok (Atom (AStr s))
          | Raise e => Raise e
          end
      | Atom _ => Raise TypeError
      end
  | _ => Ok v
  end.

(** ** class ModelClass *)

Definition set_name (f : field) (n : string) : field :=
  match f with
  | TextField _ u nl => TextField n u nl
  | IntegerField _ u nl => IntegerField n u nl
  | RealField _ u nl => RealField n u nl
  | PrimaryKey _ a => PrimaryKey n a
  | ForeignKey b _ u nl => ForeignKey b n u nl
  end.

(** What a class body binds a name to. *)
Inductive attribute : Type :=
| FieldAttr (f : field)
| OtherAttr.

Definition collect_fields (namespace : list (string * attribute))
  : list (string * field) :=
  fold_left
    (fun fields item =>
       match snd item with
       | FieldAttr field_obj => dict_set fields (fst item) field_obj
       | OtherAttr => fields
       end)
    namespace [].

(** [ModelClass.__new__(cls, name, bases, namespace)]: the class built and
    the [Database.instance] attribute afterwards.  Each declared field
    is a distinct object, so setting [f.name] is a map over the fields.
    The base class [Model] is not registered; the source gives it no
    [_name], and nothing here reads the one it carries. *)
Definition ModelClass__new__ (name : string) (namespace : list (string * attribute))
    (instance : option (database C))
  : result (model * option (database C)) :=
  let fields := collect_fields namespace in
  let result := ModelCls name (map (fun kf => (fst kf, set_name (snd kf) (fst kf))) fields) in
  if negb (String.eqb name "Model") then
    match Database_call None instance with
    | (Ok d, instance', _) =>
        Ok (result,
            Some (mkDatabase (db_name d) (dict_set (models d) name result) (connection d)))
    | (Raise e, _, _) => Raise e
    end
  else Ok (result, instance).

(** ** class Model *)

(** [Model.__init__(self, **kwargs)] *)
Definition Model__init__ (cls : model) (kwargs : list (string * pyval)) : record :=
  let field_dict :=
    fold_left
      (fun field_dict item =>
         let '(field_name, field_value) := item in
         match dict_get (fields cls) field_name with
         | Some f =>
             if validate f field_value
             then match dict_get kwargs field_name with
                  | Some v => dict_set field_dict field_name v
                  | None => field_dict
                  end
             else field_dict
         | None => field_dict
         end)
      kwargs []
  in Instance cls field_dict true.

(** [obj._new = b]: [_new] is no declared field, so [__setattr__] stores
    it as an ordinary attribute. *)
Definition set_new (r : record) (b : bool) : record :=
  Instance (cls r) (field_dict r) b.

Definition dquote : string := String "034"%char "".

(** The [WHERE] clause of [get] and [get_all]. *)
Definition where_string (kwargs : list (string * atom)) : string :=
  let where_list :=
    map (fun kv => fst kv ++ "=" ++ dquote ++ str_atom (snd kv) ++ dquote) kwargs in
  match where_list with
  | [] => ""
  | _ => "WHERE " ++ join " AND " where_list
  end.

Definition fetchone (rows : list (list atom)) : option (list atom) :=
  match rows with
  | [] => None
  | row :: _ => Some row
  end.

(** The loop of [get] over [zip(column_names, query_result)]. *)
Section DecodeRow.
Variable decode : string -> atom -> M C pyval.

Fixpoint decode_row (pairs : list (string * atom))
    (query_dict : list (string * pyval)) : M C (list (string * pyval)) :=
  match pairs with
  | [] => ret query_dict
  | (key, value) :: rest =>
      v <- decode key value ;;
      decode_row rest (dict_set query_dict key v)
  end.
End DecodeRow.

(** The filter of [get] and [get_all] maps field names to literals
    ([None], [int], [float], [str]); [str(v)] renders them.

    [Model.get] and the [get] of the field classes.  [ForeignKey.get]
    calls [get] of the bound class, which was declared before the class
    holding the key: the recursion is structural in the class. *)
Fixpoint Model_get (cls : model) (kwargs : list (string * atom)) {struct cls}
  : M C (option record) :=
  match cls with
  | ModelCls _name fields =>
      let field_names := join ", " (keys fields) in
      _ <- connection_attr ;;
      let sql := "SELECT " ++ field_names ++ " FROM " ++ _name ++ " "
                   ++ where_string kwargs ++ ";" in
      logging_debug sql ;;
      c <- engine_call (CursorExecute sql) (cursor_execute sql) ;;
      let column_names := fst c in
      match fetchone (snd c) with
      | Some (x :: xs) =>
          query_dict <-
            decode_row
              (fun key value =>
                 dict_getitem_then
                   (fun field => Field_get field value)
                   (raise (KeyError key)) key fields)
              (combine column_names (x :: xs)) [] ;;
          let obj := Model__init__ cls query_dict in
          ret (Some (set_new obj false))
      | _ => ret None
      end
  end
with Field_get (f : field) (value : atom) {struct f} : M C pyval :=
  match f with
  | ForeignKey bind_model _ _ _ =>
      bind_obj <- Model_get bind_model [("id", value)] ;;
      ret (match bind_obj with Some r => Obj r | None => Atom ANone end)
  | _ => ret (Atom value)
  end.

(** [Model.get_all]: the rows go to the constructor as fetched. *)
Definition Model_get_all (cls : model) (kwargs : list (string * atom))
  : M C (option (list record)) :=
  let field_names := join ", " (keys (fields cls)) in
  _ <- connection_attr ;;
  let sql := "SELECT " ++ field_names ++ " FROM " ++ _name cls ++ " "
               ++ where_string kwargs ++ ";" in
  logging_debug sql ;;
  c <- engine_call (CursorExecute sql) (cursor_execute sql) ;;
  let column_names := fst c in
  let query_results := snd c in
  match query_results with
  | _ :: _ =>
      ret (Some
        (map (fun query_result =>
                let query_dict :=
                  dict_of_items
                    (map (fun kv => (fst kv, Atom (snd kv)))
                         (combine column_names query_result)) in
                let obj := Model__init__ cls query_dict in
                set_new obj false)
             query_results))
  | [] => ret None
  end.

(** The first loop of [presave]: names and prepared values, in the order
    of [self.field_dict]. *)
Fixpoint presave_loop (fields : list (string * field))
    (items : list (string * pyval)) : result (list string * list pyval) :=
  match items with
  | [] => Ok ([], [])
  | (field_name, field_value) :: rest =>
      match dict_get fields field_name with
      | None => Raise (KeyError field_name)
      | Some field_obj =>
          match prepare field_obj field_value with
          | Raise e => Raise e
          | Ok prepared =>
              match presave_loop fields rest with
              | Ok (field_names, field_values) =>
                  Ok (field_name :: field_names, prepared :: field_values)
              | Raise e => Raise e
              end
          end
      end
  end.

(** The statement [presave] builds inside its [try]. *)
Definition presave_sql (self : record) (field_names : list string)
    (field_values : list pyval) : result string :=
  let fields_sets :=
    join ", " (map (fun vn => snd vn ++ "=" ++ str repr_str (fst vn))
                   (combine field_values field_names)) in
  if _new self then
    match join_values ", " field_values with
    | Ok vs =>
        Ok ("INSERT INTO " ++ _name (cls self) ++ " (" ++ join ", " field_names
              ++ ") VALUES (" ++ vs ++ ");")
    | Raise e => Raise e
    end
  else
    match format_d (Model__getitem__ self "id") with
    | Ok id =>
        Ok ("UPDATE " ++ _name (cls self) ++ " SET " ++ fields_sets
              ++ " WHERE id=" ++ id ++ ";")
    | Raise e => Raise e
    end.

(** [try: body  except sqlite3.IntegrityError as e: handler(e)] *)
Definition try_except_IntegrityError {A} (body : M C A) (handler : exn -> M C A)
  : M C A :=
  fun w => match body w with
           | (Raise (IntegrityError msg), w') => handler (IntegrityError msg) w'
           | other => other
           end.

(** [Model.presave]; it assigns to no attribute of [self]. *)
Definition Model_presave (self : record) : M C unit :=
  nv <- lift (presave_loop (fields (cls self)) (field_dict self)) ;;
  let '(field_names, field_values) := nv in
  try_except_IntegrityError
    (sql <- lift (presave_sql self field_names field_values) ;;
     Database_execute sql)
    (fun e => logging_error (str_exn e)).

Definition Model_commit (self : record) : M C unit := Database_commit.

Definition Model_save (self : record) : M C unit :=
  Model_presave self ;;
  Model_commit self.

(** [Model.__getattr__], reached for every name that is not an instance
    or class attribute: a declared field reads [field_dict], any other
    name falls off the end of the function. *)
Definition Model__getattr__ (self : record) (item : string) : M C pyval :=
  if dict_mem item (fields (cls self))
  then ret (match dict_get (field_dict self) item with
            | Some v => v
            | None => Atom ANone
            end)
  else ret (Atom ANone).

Definition Model__setitem__ (self : record) (key : string) (v : pyval) : record :=
  Instance (cls self) (dict_set (field_dict self) key v) (_new self).

(** ** Database.init *)

Definition create_table_sql (not_exists : bool) (model_name : string)
    (model_obj : model) : string :=
  let sql_query_part :=
    join ", " (map (fun nf => __get_sqlite_def__ (snd nf)) (fields model_obj)) in
  let if_not_exists := if not_exists then " IF NOT EXISTS" else "" in
  "CREATE TABLE" ++ if_not_exists ++ " " ++ model_name ++ " (" ++ sql_query_part ++ ");".

Fixpoint init_loop (not_exists : bool) (items : list (string * model)) : M C unit :=
  match items with
  | [] => ret tt
  | (model_name, model_obj) :: rest =>
      let sql_query := create_table_sql not_exists model_name model_obj in
      Database_execute sql_query ;;
      init_loop not_exists rest
  end.

Definition Database_init (not_exists : bool) : M C unit :=
  self <- (fun w => (Ok (db w), w)) ;;
  init_loop not_exists (models self) ;;
  Database_commit.
End Yeti.

(** ** Observing a run *)

Definition is_call (e : event) : bool :=
  match e with
  | Log _ _ => false
  | _ => true
  end.

(** The engine calls of a trace, logging left out. *)
Definition calls (t : list event) : list event := filter is_call t.

(** The [SELECT] text of [get] and [get_all]. *)
Definition select_sql (cls : model) (kwargs : list (string * atom)) : string :=
  "SELECT " ++ join ", " (keys (fields cls)) ++ " FROM " ++ _name cls ++ " "
    ++ where_string kwargs ++ ";".

(** The statement a record's [presave] sends, when it gets that far. *)
Definition statement_of (repr_str : string -> string) (self : record) : result string :=
  match presave_loop (fields (cls self)) (field_dict self) with
  | Ok (field_names, field_values) => presave_sql repr_str self field_names field_values
  | Raise e => Raise e
  end.

(** [field = cls.fields[key]] then [field.get(value)], the body of the
    loop of [get]. *)
Definition decode_column {C : Type} {engine : Sqlite3 C} (cls : model)
    (key : string) (value : atom) : M C pyval :=
  match dict_get (fields cls) key with
  | Some field => Field_get field value
  | None => raise (KeyError key)
  end.

(** The world once a cursor has executed [sql], the connection being left
    in state [c']. *)
Definition after_query {C : Type} (w : world C) (sql : string) (c' : C) : world C :=
  mkWorld (mkDatabase (db_name (db w)) (models (db w)) (Some c'))
          (trace w ++ [Log "DEBUG" sql; CursorExecute sql]).

(** What [get_all] makes of one fetched row. *)
Definition record_of_row (cls : model) (column_names : list string)
    (query_result : list atom) : record :=
  set_new
    (Model__init__ cls
       (dict_of_items
          (map (fun kv => (fst kv, Atom (snd kv))) (combine column_names query_result))))
    false.

(** [w'] continues [w]: nothing already in the trace was lost. *)
Definition extends {C : Type} (w w' : world C) : Prop :=
  exists events, trace w' = (trace w ++ events)%list.

(** Whether [__init__] keeps a supplied pair: the name is a declared
    field and the value passes that field's [validate]. *)
Definition kept (cls : model) (item : string * pyval) : bool :=
  match dict_get (fields cls) (fst item) with
  | Some f => validate f (snd item)
  | None => false
  end.

(** The fields of a class body, in the order they are written. *)
Definition declared_fields (namespace : list (string * attribute))
  : list (string * field) :=
  fold_right
    (fun item rest =>
       match snd item with
       | FieldAttr f => (fst item, f) :: rest
       | OtherAttr => rest
       end)
    [] namespace.

(** Statements by kind. *)
Definition is_insert (e : event) : bool :=
  match e with
  | ConnExecute sql => prefix "INSERT INTO " sql
  | _ => false
  end.

Definition is_update (e : event) : bool :=
  match e with
  | ConnExecute sql => prefix "UPDATE " sql
  | _ => false
  end.

(** The claim's wording for a text literal: the characters of the value
    between single quotes, each single quote written twice. *)
Definition doubled_quotes (s : string) : string :=
  "'" ++ fold_right
           (fun c rest => (if Ascii.eqb c "'"%char then "''" else String c "") ++ rest)
           "" (list_ascii_of_string s)
      ++ "'".

(** ** A scripted engine and sample schemas, for examples *)

Record script : Type := mkScript {
  on_execute : string -> result unit;
  on_query : string -> list string * list (list atom)
}.

Definition scripted (s : script) : Sqlite3 unit := {|
  connect := fun _ => Ok tt;
  connection_execute := fun sql c => (on_execute s sql, c);
  cursor_execute := fun sql c => (Ok (on_query s sql), c);
  connection_commit := fun c => (Ok tt, c)
|}.

Definition User : model :=
  ModelCls "User"
    [("id", PrimaryKey "id" true);
     ("name", TextField "name" false true);
     ("age", IntegerField "age" false true)].

Definition Person : model :=
  ModelCls "Person"
    [("first", TextField "first" false true);
     ("last", TextField "last" false true)].

(** The body of [class Person(Model)]: two text fields around a method. *)
Definition Person_namespace : list (string * attribute) :=
  [("first", FieldAttr (TextField "" false true));
   ("full_name", OtherAttr);
   ("last", FieldAttr (TextField "" false true))].

Definition Post : model :=
  ModelCls "Post"
    [("id", PrimaryKey "id" false);
     ("title", TextField "title" false true);
     ("author", ForeignKey User "author" false false)].

(** One post, written by user 7; every statement is accepted. *)
Definition blog : script := {|
  on_execute := fun _ => Ok tt;
  on_query := fun sql =>
    if String.eqb sql (select_sql Post [("id", AInt 1)])
    then (["id"; "title"; "author"], [[AInt 1; AStr "hello"; AInt 7]])
    else if String.eqb sql (select_sql User [("id", AInt 7)])
    then (["id"; "name"; "age"], [[AInt 7; AStr "Ann"; AInt 30]])
    else ([], [])
|}.

(** Every write violates a constraint. *)
Definition rejecting : script := {|
  on_execute := fun _ => Raise (IntegrityError "UNIQUE constraint failed: Person.first");
  on_query := fun _ => ([], [])
|}.

Definition w0 : world unit :=
  mkWorld (mkDatabase "test.db" [("User", User); ("Post", Post)] (Some tt)) [].

Definition quoted (s : string) : string := "'" ++ s ++ "'".

Definition ann : record :=
  Model__init__ Person [("last", Atom (AStr "O'Brien")); ("first", Atom (AStr "Ann"))].

(** ** Further observations *)

(** [isinstance(v, str)] *)
Definition is_str (v : pyval) : bool :=
  match v with
  | Atom (AStr _) => true
  | _ => false
  end.

(** The classes whose [prepare] is [Field.prepare]. *)
Definition is_plain_field (f : field) : bool :=
  match f with
  | IntegerField _ _ _ | RealField _ _ _ | PrimaryKey _ _ => true
  | _ => false
  end.

Definition is_TextField (f : field) : bool :=
  match f with
  | TextField _ _ _ => true
  | _ => false
  end.

(** How SQL reads a string literal: an opening quote, the text with each
    quote written twice, a closing quote and nothing after it. *)
Fixpoint read_sql_text (s : string) : option string :=
  match s with
  | EmptyString => None
  | String c rest =>
      if Ascii.eqb c "'"%char then
        match rest with
        | EmptyString => Some EmptyString
        | String c' rest' =>
            if Ascii.eqb c' "'"%char
            then option_map (String "'"%char) (read_sql_text rest')
            else None
        end
      else option_map (String c) (read_sql_text rest)
  end.

Definition read_sql_literal (s : string) : option string :=
  match s with
  | EmptyString => None
  | String c body => if Ascii.eqb c "'"%char then read_sql_text body else None
  end.

(** An engine on which every write fails for a reason other than a
    constraint. *)
Definition broken : script := {|
  on_execute := fun _ => Raise (DatabaseError "no such table: Person");
  on_query := fun _ => ([], [])
|}.


(** Events that read: logging and cursor queries. *)
Definition is_read (e : event) : bool :=
  match e with
  | Log _ _ | CursorExecute _ => true
  | _ => false
  end.

(** [w'] comes from [w] by logging and querying only; the [Database]
    object keeps its name and its registry. *)
Definition only_reads {C : Type} (w w' : world C) : Prop :=
  exists events,
    trace w' = (trace w ++ events)%list
    /\ forallb is_read events = true
    /\ db_name (db w') = db_name (db w)
    /\ models (db w') = models (db w).

(** * Properties *)

Unset Implicit Arguments.

(** ** Strings and dictionaries *)

Lemma replace_quotes (s : string) :
  replace "'"%char "''" s
  = fold_right
      (fun c rest => (if Ascii.eqb c "'"%char then "''" else String c "") ++ rest)
      "" (list_ascii_of_string s).
Proof.
  induction s as [|c s IH]; simpl; [reflexivity|].
  destruct (Ascii.eqb c "'"%char); simpl; now rewrite IH.
Qed.

Lemma append_assoc (a b c : string) : (a ++ b) ++ c = a ++ b ++ c.
Proof. induction a; simpl; congruence. Qed.

Lemma dict_get_In {A : Type} (d : list (string * A)) k a :
  dict_get d k = Some a -> In (k, a) d.
Proof.
  induction d as [|[k' x] d IH]; simpl; [discriminate|].
  destruct (String.eqb_spec k' k) as [->|]; intro H.
  - injection H as ->. now left.
  - right. auto.
Qed.

Lemma dict_get_NoDup {A : Type} (d : list (string * A)) k a :
  NoDup (keys d) -> In (k, a) d -> dict_get d k = Some a.
Proof.
  induction d as [|[k' x] d IH]; simpl; [tauto|].
  intros Hnd [H|H]; inversion Hnd; subst.
  - injection H as -> ->. now rewrite String.eqb_refl.
  - destruct (String.eqb_spec k' k) as [->|]; [|auto].
    exfalso. apply H2. change k with (fst (k, a)). now apply in_map.
Qed.

Lemma dict_set_fresh {A : Type} (d : list (string * A)) k a :
  ~ In k (keys d) -> dict_set d k a = (d ++ [(k, a)])%list.
Proof.
  induction d as [|[k' x] d IH]; simpl; [reflexivity|]. intro H.
  destruct (String.eqb_spec k' k) as [->|]; [tauto|].
  rewrite IH; tauto.
Qed.

Lemma dict_get_set_same {A : Type} (d : list (string * A)) k a :
  dict_get (dict_set d k a) k = Some a.
Proof.
  induction d as [|[k' x] d IH]; simpl.
  - now rewrite String.eqb_refl.
  - destruct (String.eqb_spec k' k) as [->|Hne]; simpl.
    + now rewrite String.eqb_refl.
    + destruct (String.eqb_spec k' k); [contradiction|exact IH].
Qed.

Lemma dict_get_set_other {A : Type} (d : list (string * A)) k k' a :
  k <> k' -> dict_get (dict_set d k a) k' = dict_get d k'.
Proof.
  intro Hne. induction d as [|[k0 x] d IH]; simpl.
  - destruct (String.eqb_spec k k'); [contradiction|reflexivity].
  - destruct (String.eqb_spec k0 k) as [->|]; simpl.
    + destruct (String.eqb_spec k k'); [contradiction|reflexivity].
    + now rewrite IH.
Qed.

Lemma dict_getitem_then_get {A B : Type} (found : A -> B) (missing : B) key d :
  dict_getitem_then found missing key d
  = match dict_get d key with
    | Some a => found a
    | None => missing
    end.
Proof.
  induction d as [|[k a] d IH]; simpl; [reflexivity|].
  now destruct (String.eqb k key).
Qed.

(** ** Text fields *)

(** C8: a text field encodes O'Brien as 'O''Brien' -- the value between
    single quotes with every embedded single quote doubled -- and decoding
    a stored text value hands it back unchanged, without touching the
    database. *)
Theorem TextField_encode_decode :
  forall (C : Type) (engine : Sqlite3 C) (n : string) (u nl : bool),
    prepare (TextField n u nl) (Atom (AStr "O'Brien")) = Ok (Atom (AStr "'O''Brien'"))
    /\ (forall s, prepare (TextField n u nl) (Atom (AStr s))
                  = Ok (Atom (AStr (doubled_quotes s))))
    /\ (forall (value : atom) (w : world C),
           Field_get (TextField n u nl) value w = (Ok (Atom value), w)).
Proof.
  intros C engine n u nl. split; [reflexivity|]. split.
  - intro s. unfold prepare, doubled_quotes. now rewrite replace_quotes.
  - intros value w. reflexivity.
Qed.

(** ** The Database singleton *)

(** C10: the accessor called without a name fails at once with the
    "Database not set" error when no instance was ever created, and
    otherwise returns the existing instance, leaving it as it was. *)
Theorem Database_accessor_without_name :
  forall (C : Type) (engine : Sqlite3 C),
    (exists msg,
        Database_call None (None : option (database C))
        = (Raise (Exception msg), None, [])
        /\ prefix "Database not set" msg = true)
    /\ (forall d : database C, Database_call None (Some d) = (Ok d, Some d, [])).
Proof.
  intros C engine. split.
  - eexists. split; reflexivity.
  - intro d. reflexivity.
Qed.

(** ** Runs of the database calls *)

Lemma calls_app (t u : list event) : calls (t ++ u) = (calls t ++ calls u)%list.
Proof. apply filter_app. Qed.

Section Runs.
Context {C : Type} {engine : Sqlite3 C}.

Lemma Database_execute_run (sql : string) (w : world C) :
  Database_execute sql w
  = match connection (db w) with
    | Some c =>
        (fst (connection_execute sql c),
         mkWorld (mkDatabase (db_name (db w)) (models (db w))
                             (Some (snd (connection_execute sql c))))
                 (trace w ++ [Log "DEBUG" sql; ConnExecute sql]))
    | None => (Raise AttributeError, mkWorld (db w) (trace w ++ [Log "DEBUG" sql]))
    end.
Proof.
  unfold Database_execute, bind, logging_debug, emit, engine_call. simpl.
  destruct (connection (db w)) as [c|]; [|reflexivity].
  destruct (connection_execute sql c) as [r c']. simpl.
  now rewrite <- app_assoc.
Qed.

Lemma Database_commit_run (w : world C) :
  Database_commit w
  = match connection (db w) with
    | Some c =>
        (fst (connection_commit c),
         mkWorld (mkDatabase (db_name (db w)) (models (db w))
                             (Some (snd (connection_commit c))))
                 (trace w ++ [Log "DEBUG" ("Commiting db " ++ db_name (db w)); ConnCommit]))
    | None =>
        (Raise AttributeError,
         mkWorld (db w) (trace w ++ [Log "DEBUG" ("Commiting db " ++ db_name (db w))]))
    end.
Proof.
  unfold Database_commit, bind, logging_debug, emit, engine_call. simpl.
  destruct (connection (db w)) as [c|]; [|reflexivity].
  destruct (connection_commit c) as [r c']. simpl.
  now rewrite <- app_assoc.
Qed.

Lemma init_loop_calls (not_exists : bool) (items : list (string * model)) :
  forall (w : world C) r w',
    init_loop not_exists items w = (r, w') ->
    let statements :=
      map (fun nm => ConnExecute (create_table_sql not_exists (fst nm) (snd nm))) items in
    db_name (db w') = db_name (db w)
    /\ match r with
       | Ok _ => calls (trace w') = (calls (trace w) ++ statements)%list
       | Raise _ =>
           exists k, (k <= List.length statements)%nat
                     /\ calls (trace w') = (calls (trace w) ++ firstn k statements)%list
       end.
Proof.
  induction items as [|[model_name model_obj] rest IH]; intros w r w' Hrun; simpl in *.
  - injection Hrun as <- <-. split; [reflexivity|]. now rewrite app_nil_r.
  - unfold bind in Hrun. rewrite Database_execute_run in Hrun.
    destruct (connection (db w)) as [c|] eqn:Hc.
    + destruct (connection_execute _ c) as [[[]|e] c'] eqn:Hex; simpl in Hrun.
      * apply IH in Hrun. simpl in Hrun. destruct Hrun as [Hn Hr]. split; [exact Hn|].
        rewrite calls_app in Hr. simpl in Hr.
        destruct r as [u|e'].
        -- rewrite Hr, <- app_assoc. reflexivity.
        -- destruct Hr as [k [Hk Hr]]. exists (S k). split; [simpl; lia|].
           rewrite Hr, <- app_assoc. reflexivity.
      * injection Hrun as <- <-. simpl. split; [reflexivity|].
        exists 1%nat. split; [lia|]. now rewrite calls_app.
    + injection Hrun as <- <-. simpl. split; [reflexivity|].
      exists 0%nat. split; [lia|]. rewrite calls_app. simpl. reflexivity.
Qed.
Lemma Database_init_calls (not_exists : bool) (w : world C) r w' :
  Database_init not_exists w = (r, w') ->
  let expected :=
    (map (fun nm => ConnExecute (create_table_sql not_exists (fst nm) (snd nm)))
         (models (db w)) ++ [ConnCommit])%list in
  match r with
  | Ok _ => calls (trace w') = (calls (trace w) ++ expected)%list
  | Raise _ => exists k, calls (trace w') = (calls (trace w) ++ firstn k expected)%list
  end.
Proof.
  intro Hrun. cbv zeta.
  unfold Database_init, bind in Hrun.
  destruct (init_loop not_exists (models (db w)) w) as [r1 w1] eqn:Hloop.
  apply init_loop_calls in Hloop. simpl in Hloop. destruct Hloop as [_ Hloop].
  destruct r1 as [[]|e].
  - rewrite Database_commit_run in Hrun.
    destruct (connection (db w1)) as [c|].
    + injection Hrun as <- <-. simpl. rewrite calls_app, Hloop. simpl.
      destruct (fst (connection_commit c)).
      * now rewrite <- app_assoc.
      * exists (S (List.length (models (db w)))). rewrite firstn_all2.
        -- now rewrite <- app_assoc.
        -- rewrite length_app, length_map. simpl. lia.
    + injection Hrun as <- <-. simpl. rewrite calls_app, Hloop. simpl.
      exists (List.length (models (db w))). rewrite app_nil_r.
      rewrite firstn_app, length_map, Nat.sub_diag. simpl.
      rewrite app_nil_r, firstn_all2; [reflexivity|]. rewrite length_map. lia.
  - injection Hrun as <- <-. destruct Hloop as [k [Hk Hloop]]. exists k.
    rewrite Hloop, firstn_app.
    replace (k - _)%nat with 0%nat by lia. simpl. now rewrite app_nil_r.
Qed.
End Runs.

(** C9: [init] walks the registered schemas in registration order and
    sends, for each, CREATE TABLE [IF NOT EXISTS] <name> (<column
    definitions in field order>); -- IF NOT EXISTS exactly when the flag is
    set -- and then commits once, after the last table.  When a call
    raises, the calls made so far are an initial part of that sequence. *)
Theorem Database_init_creates_tables :
  forall (C : Type) (engine : Sqlite3 C) (not_exists : bool) (w : world C) r w',
    Database_init not_exists w = (r, w') ->
    let statement (model_name : string) (model_obj : model) :=
      "CREATE TABLE" ++ (if not_exists then " IF NOT EXISTS" else "") ++ " "
        ++ model_name ++ " ("
        ++ join ", " (map (fun nf => __get_sqlite_def__ (snd nf)) (fields model_obj))
        ++ ");" in
    let expected :=
      (map (fun nm => ConnExecute (statement (fst nm) (snd nm))) (models (db w))
         ++ [ConnCommit])%list in
    match r with
    | Ok _ => calls (trace w') = (calls (trace w) ++ expected)%list
    | Raise _ => exists k, calls (trace w') = (calls (trace w) ++ firstn k expected)%list
    end.
Proof.
  intros C engine not_exists w r w' Hrun.
  exact (Database_init_calls not_exists w r w' Hrun).
Qed.

Lemma Database_init_creates_tables_witness :
  exists w',
    Database_init (engine := scripted blog) true w0 = (Ok tt, w')
    /\ calls (trace w')
       = [ConnExecute "CREATE TABLE IF NOT EXISTS User (id INTEGER PRIMARY KEY AUTOINCREMENT, name TEXT, age INTEGER);";
          ConnExecute "CREATE TABLE IF NOT EXISTS Post (id INTEGER PRIMARY KEY, title TEXT, author INTEGER NOT NULL);";
          ConnCommit].
Proof.
  eexists. split; [reflexivity|].
  exact (@Database_init_creates_tables unit (scripted blog) true w0 _ _ eq_refl).
Defined.

(** ** presave and save *)

Lemma format_d_no_IntegrityError (v : pyval) msg :
  format_d v <> Raise (IntegrityError msg).
Proof. destruct v as [[| |[]|]|]; simpl; discriminate. Qed.

Lemma as_strs_no_IntegrityError (l : list pyval) msg :
  as_strs l <> Raise (IntegrityError msg).
Proof.
  induction l as [|[[| | |s]|] l IH]; simpl; try discriminate.
  destruct (as_strs l); [discriminate|]. intro H. apply IH. congruence.
Qed.

Lemma presave_sql_no_IntegrityError repr_str self names values msg :
  presave_sql repr_str self names values <> Raise (IntegrityError msg).
Proof.
  unfold presave_sql, join_values. destruct (_new self).
  - pose proof (as_strs_no_IntegrityError values msg).
    destruct (as_strs values); [discriminate|congruence].
  - pose proof (format_d_no_IntegrityError (Model__getitem__ self "id") msg).
    destruct (format_d _); [discriminate|congruence].
Qed.

Lemma prepare_no_IntegrityError f v msg :
  prepare f v <> Raise (IntegrityError msg).
Proof.
  destruct f; simpl; try discriminate.
  - destruct v as [[]|]; discriminate.
  - destruct v as [a|r]; [discriminate|].
    pose proof (format_d_no_IntegrityError (Model__getitem__ r "id") msg).
    destruct (format_d _); [discriminate|congruence].
Qed.

Lemma presave_loop_no_IntegrityError fs items msg :
  presave_loop fs items <> Raise (IntegrityError msg).
Proof.
  induction items as [|[k v] items IH]; simpl; [discriminate|].
  destruct (dict_get fs k) as [f|]; [|discriminate].
  pose proof (prepare_no_IntegrityError f v msg).
  destruct (prepare f v); [|congruence].
  destruct (presave_loop fs items) as [[]|]; [discriminate|congruence].
Qed.

Section Saving.
Context {C : Type} {engine : Sqlite3 C}.
Variable repr_str : string -> string.

Lemma Model_presave_run (self : record) (w : world C) :
  Model_presave repr_str self w
  = match statement_of repr_str self with
    | Ok sql =>
        match Database_execute sql w with
        | (Raise (IntegrityError msg), w') => logging_error msg w'
        | other => other
        end
    | Raise e => (Raise e, w)
    end.
Proof.
  unfold Model_presave, statement_of, bind, lift.
  destruct (presave_loop _ _) as [[names values]|e]; [|reflexivity].
  unfold try_except_IntegrityError, bind, lift.
  pose proof (presave_sql_no_IntegrityError repr_str self names values) as Hno.
  destruct (presave_sql repr_str self names values) as [sql|e].
  - destruct (Database_execute sql w) as [[u|[]] w']; reflexivity.
  - destruct e; try reflexivity. exfalso. eapply Hno. reflexivity.
Qed.

Lemma Model_presave_never_raises_IntegrityError (self : record) (w : world C) msg :
  fst (Model_presave repr_str self w) <> Raise (IntegrityError msg).
Proof.
  rewrite Model_presave_run. unfold statement_of.
  pose proof (presave_loop_no_IntegrityError (fields (cls self)) (field_dict self) msg) as H1.
  destruct (presave_loop _ _) as [[names values]|e];
    [|simpl; intro H; injection H as ->; now apply H1].
  pose proof (presave_sql_no_IntegrityError repr_str self names values msg) as H2.
  destruct (presave_sql _ _ _ _) as [sql|e];
    [|simpl; intro H; injection H as ->; now apply H2].
  destruct (Database_execute sql w) as [[u|e] w'] eqn:Hex; [discriminate|].
  destruct e; simpl; try discriminate.
Qed.

(** What a run of [presave] that returns has done: one statement, the
    one [statement_of] gives, was sent on the connection. *)
Lemma Model_presave_returns (self : record) (w w' : world C) :
  Model_presave repr_str self w = (Ok tt, w') ->
  exists sql,
    statement_of repr_str self = Ok sql
    /\ calls (trace w') = (calls (trace w) ++ [ConnExecute sql])%list
    /\ db_name (db w') = db_name (db w).
Proof.
  rewrite Model_presave_run. destruct (statement_of repr_str self) as [sql|e]; [|discriminate].
  intro H. exists sql. split; [reflexivity|].
  rewrite Database_execute_run in H.
  destruct (connection (db w)) as [c|].
  - destruct (fst (connection_execute sql c)) as [[]|[]];
      try discriminate; injection H as <-; simpl; rewrite ?calls_app; simpl;
      rewrite ?app_nil_r; auto.
  - discriminate.
Qed.

Lemma Model_save_returns (self : record) (w w' : world C) :
  Model_save repr_str self w = (Ok tt, w') ->
  exists sql,
    statement_of repr_str self = Ok sql
    /\ calls (trace w') = (calls (trace w) ++ [ConnExecute sql; ConnCommit])%list.
Proof.
  unfold Model_save, Model_commit, bind.
  destruct (Model_presave repr_str self w) as [[[]|e] w1] eqn:Hpre; [|discriminate].
  apply Model_presave_returns in Hpre. destruct Hpre as [sql [Hsql [Hcalls _]]].
  rewrite Database_commit_run. intro H. exists sql. split; [exact Hsql|].
  destruct (connection (db w1)) as [c|]; [|discriminate].
  injection H as _ <-. simpl. rewrite calls_app, Hcalls. simpl.
  now rewrite <- app_assoc.
Qed.

Lemma statement_of_shape (self : record) (sql : string) :
  statement_of repr_str self = Ok sql ->
  if _new self
  then exists columns literals,
      sql = "INSERT INTO " ++ _name (cls self) ++ " (" ++ columns
              ++ ") VALUES (" ++ literals ++ ");"
  else exists sets id,
      format_d (Model__getitem__ self "id") = Ok id
      /\ sql = "UPDATE " ++ _name (cls self) ++ " SET " ++ sets
                 ++ " WHERE id=" ++ id ++ ";".
Proof.
  unfold statement_of.
  destruct (presave_loop _ _) as [[names values]|e]; [|discriminate].
  unfold presave_sql. destruct (_new self).
  - destruct (join_values ", " values) as [vs|]; [|discriminate].
    intro H. injection H as <-. do 2 eexists. reflexivity.
  - destruct (format_d _) as [id|]; [|discriminate].
    intro H. injection H as <-. do 2 eexists. split; reflexivity.
Qed.
End Saving.

(** C1, as the code has it: [save] changes nothing in the record, so two
    saves of one instance send the same statement twice, each followed by
    a commit.  The statement is an INSERT for as long as the record is
    new, and an UPDATE keyed by id only for a record whose flag was cleared
    by [get] or [get_all]. *)
Theorem save_sends_same_statement_again :
  forall (C : Type) (engine : Sqlite3 C) (repr_str : string -> string)
         (self : record) (w w1 w2 : world C),
    Model_save repr_str self w = (Ok tt, w1) ->
    Model_save repr_str self w1 = (Ok tt, w2) ->
    exists sql,
      calls (trace w1) = (calls (trace w) ++ [ConnExecute sql; ConnCommit])%list
      /\ calls (trace w2) = (calls (trace w1) ++ [ConnExecute sql; ConnCommit])%list
      /\ if _new self
         then exists columns literals,
             sql = "INSERT INTO " ++ _name (cls self) ++ " (" ++ columns
                     ++ ") VALUES (" ++ literals ++ ");"
         else exists sets id,
             format_d (Model__getitem__ self "id") = Ok id
             /\ sql = "UPDATE " ++ _name (cls self) ++ " SET " ++ sets
                        ++ " WHERE id=" ++ id ++ ";".
Proof.
  intros C engine repr_str self w w1 w2 H1 H2.
  apply Model_save_returns in H1. destruct H1 as [sql [Hsql Hc1]].
  apply Model_save_returns in H2. destruct H2 as [sql' [Hsql' Hc2]].
  assert (sql' = sql) as -> by congruence.
  exists sql. repeat split; try assumption.
  now apply (statement_of_shape repr_str).
Qed.

Lemma save_sends_same_statement_again_witness :
  let w1 := snd (Model_save (engine := scripted blog) quoted ann w0) in
  let w2 := snd (Model_save (engine := scripted blog) quoted ann w1) in
  exists sql,
    calls (trace w1) = [ConnExecute sql; ConnCommit]
    /\ calls (trace w2) = (calls (trace w1) ++ [ConnExecute sql; ConnCommit])%list.
Proof.
  intros w1 w2.
  destruct (save_sends_same_statement_again unit (scripted blog) quoted ann w0 w1 w2
              eq_refl eq_refl) as [sql [H1 [H2 _]]].
  exists sql. split; [exact H1|exact H2].
Defined.

(** C1 as stated fails: a record built as new and saved twice sends two
    INSERTs and no UPDATE. *)
Lemma save_twice_inserts_twice :
  _new ann = true
  /\ exists w1 w2,
      Model_save (engine := scripted blog) quoted ann w0 = (Ok tt, w1)
      /\ Model_save (engine := scripted blog) quoted ann w1 = (Ok tt, w2)
      /\ calls (trace w2)
         = [ConnExecute "INSERT INTO Person (last, first) VALUES ('O''Brien', 'Ann');";
            ConnCommit;
            ConnExecute "INSERT INTO Person (last, first) VALUES ('O''Brien', 'Ann');";
            ConnCommit]
      /\ List.length (filter is_insert (trace w2)) = 2%nat
      /\ filter is_update (trace w2) = [].
Proof.
  split; [reflexivity|].
  eexists. eexists. split; [vm_compute; reflexivity|].
  split; [vm_compute; reflexivity|].
  split; [|split]; vm_compute; reflexivity.
Qed.

(** C6: when executing the statement built by [presave] raises an
    integrity error, [presave] catches it, logs its message at error level
    and returns; [save] goes on to commit and returns normally, with
    nothing else reported.  [presave] never lets an integrity error out. *)
Theorem save_swallows_integrity_error :
  forall (C : Type) (engine : Sqlite3 C) (repr_str : string -> string)
         (self : record) (w : world C) (c c' c'' : C) (sql msg : string),
    connection (db w) = Some c ->
    statement_of repr_str self = Ok sql ->
    connection_execute sql c = (Raise (IntegrityError msg), c') ->
    connection_commit c' = (Ok tt, c'') ->
    exists w1 w2,
      Model_presave repr_str self w = (Ok tt, w1)
      /\ trace w1
         = (trace w ++ [Log "DEBUG" sql; ConnExecute sql; Log "ERROR" msg])%list
      /\ Model_save repr_str self w = (Ok tt, w2)
      /\ trace w2
         = (trace w1 ++ [Log "DEBUG" ("Commiting db " ++ db_name (db w)); ConnCommit])%list
      /\ forall (w0 : world C) (m : string),
           fst (Model_presave repr_str self w0) <> Raise (IntegrityError m).
Proof.
  intros C engine repr_str self w c c' c'' sql msg Hc Hsql Hex Hcommit.
  assert (Hpre : Model_presave repr_str self w
                 = (Ok tt,
                    mkWorld (mkDatabase (db_name (db w)) (models (db w)) (Some c'))
                      (trace w ++ [Log "DEBUG" sql; ConnExecute sql; Log "ERROR" msg]))).
  { rewrite Model_presave_run, Hsql, Database_execute_run, Hc, Hex. simpl.
    unfold logging_error, emit. simpl. now rewrite <- app_assoc. }
  eexists. eexists. split; [exact Hpre|]. split; [reflexivity|].
  split; [|split].
  - unfold Model_save, Model_commit, bind. rewrite Hpre, Database_commit_run. simpl.
    rewrite Hcommit. reflexivity.
  - reflexivity.
  - intros w0 m. apply Model_presave_never_raises_IntegrityError.
Qed.

Lemma save_swallows_integrity_error_witness :
  exists w2,
    Model_save (engine := scripted rejecting) quoted ann w0 = (Ok tt, w2)
    /\ In (Log "ERROR" "UNIQUE constraint failed: Person.first") (trace w2).
Proof.
  destruct (save_swallows_integrity_error unit (scripted rejecting) quoted ann w0 tt tt tt
              "INSERT INTO Person (last, first) VALUES ('O''Brien', 'Ann');"
              "UNIQUE constraint failed: Person.first"
              eq_refl eq_refl eq_refl eq_refl)
    as [w1 [w2 [_ [Ht1 [Hsave [Ht2 _]]]]]].
  exists w2. split; [exact Hsave|].
  rewrite Ht2, Ht1. apply in_or_app. left. apply in_or_app. right. simpl. auto.
Defined.

(** ** get and get_all *)

Section Queries.
Context {C : Type} {engine : Sqlite3 C}.

Lemma decode_row_ext (d1 d2 : string -> atom -> M C pyval) :
  (forall k v w, d1 k v w = d2 k v w) ->
  forall pairs acc w, decode_row d1 pairs acc w = decode_row d2 pairs acc w.
Proof.
  intros Hd. induction pairs as [|[k v] rest IH]; intros acc w; simpl; [reflexivity|].
  unfold bind. rewrite Hd. destruct (d2 k v w) as [[a|e] w']; [apply IH|reflexivity].
Qed.

(** The opening of [get] and [get_all]: take the connection, log the
    statement, execute it on a cursor. *)
Lemma query_prelude {A : Type} (sql : string)
    (k : list string * list (list atom) -> M C A) (w : world C) :
  (_ <- connection_attr ;;
   logging_debug sql ;;
   c <- engine_call (CursorExecute sql) (cursor_execute sql) ;;
   k c) w
  = match connection (db w) with
    | None => (Raise AttributeError, w)
    | Some c =>
        match fst (cursor_execute sql c) with
        | Raise e => (Raise e, after_query w sql (snd (cursor_execute sql c)))
        | Ok res => k res (after_query w sql (snd (cursor_execute sql c)))
        end
    end.
Proof.
  unfold bind, connection_attr, logging_debug, emit, engine_call, after_query.
  destruct (connection (db w)) as [c|] eqn:Hc; [|reflexivity].
  cbn [db trace]. rewrite Hc.
  destruct (cursor_execute sql c) as [[res|e] c']; cbn [fst snd];
    now rewrite <- app_assoc.
Qed.

Lemma Model_get_eq (cls : model) (kwargs : list (string * atom)) :
  Model_get cls kwargs
  = (_ <- connection_attr ;;
     logging_debug (select_sql cls kwargs) ;;
     c <- engine_call (CursorExecute (select_sql cls kwargs))
            (cursor_execute (select_sql cls kwargs)) ;;
     match fetchone (snd c) with
     | Some (x :: xs) =>
         query_dict <-
           decode_row
             (fun key value =>
                dict_getitem_then (fun field => Field_get field value)
                  (raise (KeyError key)) key (fields cls))
             (combine (fst c) (x :: xs)) [] ;;
         ret (Some (set_new (Model__init__ cls query_dict) false))
     | _ => ret None
     end).
Proof. destruct cls. reflexivity. Qed.

Lemma Field_get_ForeignKey (bind_model : model) (n : string) (u nl : bool) (value : atom) :
  Field_get (ForeignKey bind_model n u nl) value
  = (bind_obj <- Model_get bind_model [("id", value)] ;;
     ret (match bind_obj with Some r => Obj r | None => Atom ANone end)).
Proof. reflexivity. Qed.

Lemma Field_get_other (f : field) (value : atom) :
  match f with ForeignKey _ _ _ _ => False | _ => True end ->
  Field_get f value = ret (Atom value).
Proof. destruct f; intro H; [reflexivity..|contradiction]. Qed.

Lemma Model_get_run (cls : model) (kwargs : list (string * atom)) (w : world C) :
  Model_get cls kwargs w
  = match connection (db w) with
    | None => (Raise AttributeError, w)
    | Some c =>
        let sql := select_sql cls kwargs in
        let w1 := after_query w sql (snd (cursor_execute sql c)) in
        match fst (cursor_execute sql c) with
        | Raise e => (Raise e, w1)
        | Ok (column_names, rows) =>
            match fetchone rows with
            | Some (x :: xs) =>
                (query_dict <- decode_row (decode_column cls)
                                 (combine column_names (x :: xs)) [] ;;
                 ret (Some (set_new (Model__init__ cls query_dict) false))) w1
            | _ => (Ok None, w1)
            end
        end
    end.
Proof.
  rewrite Model_get_eq, (query_prelude _ _ w).
  destruct (connection (db w)) as [c|]; [|reflexivity].
  cbv zeta.
  destruct (fst (cursor_execute (select_sql cls kwargs) c))
    as [[names rows]|e]; [|reflexivity].
  cbn [fst snd].
  destruct (fetchone rows) as [[|x xs]|]; try reflexivity.
  unfold bind.
  rewrite (decode_row_ext _ (decode_column cls)); [reflexivity|].
  intros k v w'. unfold decode_column.
  now rewrite dict_getitem_then_get.
Qed.

Lemma Model_get_all_run (cls : model) (kwargs : list (string * atom)) (w : world C) :
  Model_get_all cls kwargs w
  = match connection (db w) with
    | None => (Raise AttributeError, w)
    | Some c =>
        let sql := select_sql cls kwargs in
        let w1 := after_query w sql (snd (cursor_execute sql c)) in
        match fst (cursor_execute sql c) with
        | Raise e => (Raise e, w1)
        | Ok (column_names, rows) =>
            match rows with
            | _ :: _ => (Ok (Some (map (record_of_row cls column_names) rows)), w1)
            | [] => (Ok None, w1)
            end
        end
    end.
Proof.
  unfold Model_get_all.
  rewrite (query_prelude _ _ w).
  destruct (connection (db w)) as [c|]; [|reflexivity].
  fold (select_sql cls kwargs). cbv zeta.
  destruct (fst (cursor_execute (select_sql cls kwargs) c))
    as [[names rows]|e]; [|reflexivity].
  cbn [fst snd]. destruct rows; reflexivity.
Qed.
End Queries.

(** C4, as the code has it: when the filter matches no row, [get] returns
    no record, and [get_all] returns no value either ([None], not an empty
    list). *)
Theorem get_and_get_all_without_rows :
  forall (C : Type) (engine : Sqlite3 C) (cls : model) (kwargs : list (string * atom))
         (w : world C) (c c' : C) (column_names : list string),
    connection (db w) = Some c ->
    cursor_execute (select_sql cls kwargs) c = (Ok (column_names, []), c') ->
    Model_get cls kwargs w = (Ok None, after_query w (select_sql cls kwargs) c')
    /\ Model_get_all cls kwargs w = (Ok None, after_query w (select_sql cls kwargs) c').
Proof.
  intros C engine cls kwargs w c c' column_names Hc Hq. split.
  - rewrite Model_get_run, Hc. cbv zeta. rewrite Hq. reflexivity.
  - rewrite Model_get_all_run, Hc. cbv zeta. rewrite Hq. reflexivity.
Qed.

Lemma get_and_get_all_without_rows_witness :
  fst (Model_get (engine := scripted blog) Post [("id", AInt 2)] w0) = Ok None
  /\ fst (Model_get_all (engine := scripted blog) Post [("id", AInt 2)] w0) = Ok None.
Proof.
  destruct (get_and_get_all_without_rows unit (scripted blog) Post [("id", AInt 2)]
              w0 tt tt [] eq_refl eq_refl) as [H1 H2].
  rewrite H1, H2. split; reflexivity.
Defined.

(** C4 as stated fails: with no matching row [get_all] does not return an
    empty list. *)
Lemma get_all_without_rows_is_not_empty_list :
  on_query blog (select_sql Post [("id", AInt 2)]) = ([], [])
  /\ fst (Model_get_all (engine := scripted blog) Post [("id", AInt 2)] w0) = Ok None
  /\ fst (Model_get_all (engine := scripted blog) Post [("id", AInt 2)] w0) <> Ok (Some []).
Proof.
  split; [reflexivity|]. split; [reflexivity|]. vm_compute. discriminate.
Qed.

(** ** Record construction *)

Lemma Model__init__loop (cls : model) (kwargs : list (string * pyval)) :
  forall (items acc : list (string * pyval)),
    (forall k v, In (k, v) items -> dict_get kwargs k = Some v) ->
    NoDup (keys items) ->
    (forall k, In k (keys acc) -> ~ In k (keys items)) ->
    fold_left
      (fun field_dict item =>
         let '(field_name, field_value) := item in
         match dict_get (fields cls) field_name with
         | Some f =>
             if validate f field_value
             then match dict_get kwargs field_name with
                  | Some v => dict_set field_dict field_name v
                  | None => field_dict
                  end
             else field_dict
         | None => field_dict
         end)
      items acc
    = (acc ++ filter (kept cls) items)%list.
Proof.
  induction items as [|[k v] items IH]; intros acc Hget Hnd Hacc; cbn [fold_left filter].
  - now rewrite app_nil_r.
  - inversion Hnd as [|? ? Hk Hnd']; subst.
    assert (Hfresh : ~ In k (keys acc)).
    { intro Hin. apply (Hacc k Hin). now left. }
    assert (Hrest : forall k0, In k0 (keys acc) -> ~ In k0 (keys items)).
    { intros k0 Hin Hin'. apply (Hacc k0 Hin). now right. }
    assert (Hget' : forall k0 v0, In (k0, v0) items -> dict_get kwargs k0 = Some v0).
    { intros k0 v0 Hin. apply Hget. now right. }
    unfold kept at 1. cbn [fst snd].
    destruct (dict_get (fields cls) k) as [f|]; [|now apply IH].
    destruct (validate f v); [|now apply IH].
    rewrite (Hget k v) by now left.
    rewrite dict_set_fresh by exact Hfresh.
    rewrite IH; [now rewrite <- app_assoc|exact Hget'|exact Hnd'|].
    intros k0 Hin. unfold keys in Hin. rewrite map_app in Hin.
    apply in_app_or in Hin. destruct Hin as [Hin|[<-|[]]]; [now apply Hrest|exact Hk].
Qed.

Lemma Model__init__field_dict (cls : model) (kwargs : list (string * pyval)) :
  NoDup (keys kwargs) ->
  field_dict (Model__init__ cls kwargs) = filter (kept cls) kwargs.
Proof.
  intro Hnd. unfold Model__init__. cbn [field_dict].
  rewrite (Model__init__loop cls kwargs kwargs []); auto.
  intros k v Hin. now apply dict_get_NoDup.
Qed.

(** C7: constructing a record from a mapping of field values stores
    exactly the supplied pairs whose name is a declared field and whose
    value passes that field's [validate], in the order supplied; the other
    pairs are left out, no error is raised, and the record is new. *)
Theorem Model_init_keeps_valid_declared_pairs :
  forall (cls0 : model) (kwargs : list (string * pyval)),
    NoDup (keys kwargs) ->
    let self := Model__init__ cls0 kwargs in
    field_dict self = filter (kept cls0) kwargs
    /\ (forall k v,
           In (k, v) (field_dict self)
           <-> In (k, v) kwargs
               /\ exists f, dict_get (fields cls0) k = Some f /\ validate f v = true)
    /\ _new self = true
    /\ cls self = cls0.
Proof.
  intros cls0 kwargs Hnd self.
  assert (Hfd : field_dict self = filter (kept cls0) kwargs)
    by now apply Model__init__field_dict.
  split; [exact Hfd|]. split; [|split; reflexivity].
  intros k v. rewrite Hfd, filter_In. unfold kept. simpl.
  split; intros [Hin H]; (split; [exact Hin|]).
  - destruct (dict_get (fields cls0) k) as [f|]; [eauto|discriminate].
  - destruct H as [f [-> Hv]]. exact Hv.
Qed.

Lemma Model_init_keeps_valid_declared_pairs_witness :
  field_dict
    (Model__init__ User
       [("name", Atom (AStr "Ann")); ("nickname", Atom (AStr "A"));
        ("age", Atom (AInt 30))])
  = [("name", Atom (AStr "Ann")); ("age", Atom (AInt 30))]
  /\ field_dict (Model__init__ User [("name", Atom (AInt 5)); ("age", Atom (AInt 30))])
     = [("age", Atom (AInt 30))].
Proof.
  split.
  - refine (proj1 (Model_init_keeps_valid_declared_pairs User _ _)).
    repeat constructor; simpl; intuition discriminate.
  - refine (proj1 (Model_init_keeps_valid_declared_pairs User _ _)).
    repeat constructor; simpl; intuition discriminate.
Defined.

(** ** Schema declaration and column order *)

Lemma collect_fields_loop :
  forall (namespace : list (string * attribute)) (acc : list (string * field)),
    NoDup (keys namespace) ->
    (forall k, In k (keys acc) -> ~ In k (keys namespace)) ->
    fold_left
      (fun fields item =>
         match snd item with
         | FieldAttr field_obj => dict_set fields (fst item) field_obj
         | OtherAttr => fields
         end)
      namespace acc
    = (acc ++ declared_fields namespace)%list.
Proof.
  induction namespace as [|[k a] ns IH]; intros acc Hnd Hacc; cbn [fold_left declared_fields fold_right].
  - now rewrite app_nil_r.
  - inversion Hnd as [|? ? Hk Hnd']; subst. cbn [fst snd].
    assert (Hrest : forall k0, In k0 (keys acc) -> ~ In k0 (keys ns)).
    { intros k0 Hin Hin'. apply (Hacc k0 Hin). now right. }
    destruct a as [f|]; [|now apply IH].
    rewrite dict_set_fresh.
    + rewrite IH; [now rewrite <- app_assoc|exact Hnd'|].
      intros k0 Hin. unfold keys in Hin. rewrite map_app in Hin.
      apply in_app_or in Hin. destruct Hin as [Hin|[<-|[]]]; [now apply Hrest|exact Hk].
    + intro Hin. apply (Hacc k Hin). now left.
Qed.

Lemma collect_fields_declared (namespace : list (string * attribute)) :
  NoDup (keys namespace) -> collect_fields namespace = declared_fields namespace.
Proof.
  intro Hnd. unfold collect_fields. rewrite collect_fields_loop; auto.
Qed.

Lemma name_set_name (f : field) (n : string) : name (set_name f n) = n.
Proof. now destruct f. Qed.

Lemma ModelClass__new__fields {C : Type} {engine : Sqlite3 C} name namespace
    (instance instance' : option (database C)) (m : model) :
  ModelClass__new__ name namespace instance = Ok (m, instance') ->
  m = ModelCls name
        (map (fun kf => (fst kf, set_name (snd kf) (fst kf))) (collect_fields namespace)).
Proof.
  unfold ModelClass__new__. destruct (negb (String.eqb name "Model")).
  - destruct (Database_call None instance) as [[[d|e] i] l]; [|discriminate].
    intro H. now injection H as <- _.
  - intro H. now injection H as <- _.
Qed.

Lemma __get_sqlite_def__starts_with_name (f : field) :
  exists rest, __get_sqlite_def__ f = name f ++ " " ++ rest.
Proof.
  assert (H : exists rest, Field__get_sqlite_def__ f = name f ++ " " ++ rest).
  { unfold Field__get_sqlite_def__.
    destruct (negb (null f)), (unique f); eexists;
      rewrite ?append_assoc; reflexivity. }
  destruct H as [rest H].
  destruct f; try (exists rest; exact H).
  cbn [__get_sqlite_def__]. destruct autoincrement.
  - exists (rest ++ " AUTOINCREMENT"). rewrite H. now rewrite !append_assoc.
  - exists rest. exact H.
Qed.

Lemma presave_loop_names (fs : list (string * field)) :
  forall (items : list (string * pyval)) names values,
    presave_loop fs items = Ok (names, values) -> names = keys items.
Proof.
  induction items as [|[k v] items IH]; intros names values; simpl.
  - intro H. now injection H as <- _.
  - destruct (dict_get fs k) as [f|]; [|discriminate].
    destruct (prepare f v); [|discriminate].
    destruct (presave_loop fs items) as [[ns vs]|]; [|discriminate].
    intro H. injection H as <- _. f_equal. now apply (IH ns vs).
Qed.

Lemma statement_of_insert (repr_str : string -> string) (self : record) (sql : string) :
  _new self = true ->
  statement_of repr_str self = Ok sql ->
  exists literals,
    sql = "INSERT INTO " ++ _name (cls self) ++ " (" ++ join ", " (keys (field_dict self))
            ++ ") VALUES (" ++ literals ++ ");".
Proof.
  intros Hnew. unfold statement_of.
  destruct (presave_loop _ _) as [[names values]|e] eqn:Hloop; [|discriminate].
  apply presave_loop_names in Hloop. subst names.
  unfold presave_sql. rewrite Hnew.
  destruct (join_values ", " values) as [vs|]; [|discriminate].
  intro H. injection H as <-. now exists vs.
Qed.

(** C2, as the code has it: for a declared schema the column definitions
    of CREATE TABLE and the column list of SELECT name the fields in
    declaration order.  The column list of INSERT is the record's own
    stored names: for a record just constructed, the supplied names that
    were kept, in the order they were supplied. *)
Theorem column_order_of_statements :
  forall (C : Type) (engine : Sqlite3 C) (repr_str : string -> string)
         (class_name : string) (namespace : list (string * attribute))
         (instance instance' : option (database C)) (m : model),
    NoDup (keys namespace) ->
    ModelClass__new__ class_name namespace instance = Ok (m, instance') ->
    let declared := keys (declared_fields namespace) in
    map (fun nf => name (snd nf)) (fields m) = declared
    /\ (forall f, exists rest, __get_sqlite_def__ f = name f ++ " " ++ rest)
    /\ (forall not_exists,
           create_table_sql not_exists class_name m
           = "CREATE TABLE" ++ (if not_exists then " IF NOT EXISTS" else "") ++ " "
               ++ class_name ++ " ("
               ++ join ", " (map (fun nf => __get_sqlite_def__ (snd nf)) (fields m))
               ++ ");")
    /\ (forall kwargs,
           select_sql m kwargs
           = "SELECT " ++ join ", " declared ++ " FROM " ++ class_name ++ " "
               ++ where_string kwargs ++ ";")
    /\ (forall kwargs sql,
           NoDup (keys kwargs) ->
           statement_of repr_str (Model__init__ m kwargs) = Ok sql ->
           exists literals,
             sql = "INSERT INTO " ++ class_name ++ " ("
                     ++ join ", " (keys (filter (kept m) kwargs))
                     ++ ") VALUES (" ++ literals ++ ");").
Proof.
  intros C engine repr_str class_name namespace instance instance' m Hnd Hnew declared.
  apply ModelClass__new__fields in Hnew. rewrite (collect_fields_declared _ Hnd) in Hnew.
  subst m. cbn [fields]. split; [|split; [|split; [|split]]].
  - subst declared. unfold keys. rewrite map_map. apply map_ext.
    intros [k f]. apply name_set_name.
  - apply __get_sqlite_def__starts_with_name.
  - intro not_exists. reflexivity.
  - intro kwargs. unfold select_sql. cbn [fields _name]. subst declared.
    unfold keys. now rewrite map_map.
  - intros kwargs sql Hk Hsql.
    apply statement_of_insert in Hsql; [|reflexivity].
    destruct Hsql as [literals ->]. exists literals.
    now rewrite (Model__init__field_dict _ _ Hk).
Qed.

Lemma column_order_of_statements_witness :
  select_sql Person [] = "SELECT first, last FROM Person ;"
  /\ map (fun nf => name (snd nf)) (fields Person) = ["first"; "last"].
Proof.
  pose proof (column_order_of_statements unit (scripted blog) quoted "Person"
                Person_namespace (Some (db w0))
                (Some (mkDatabase "test.db"
                         [("User", User); ("Post", Post); ("Person", Person)] (Some tt)))
                Person
                ltac:(repeat constructor; simpl; intuition discriminate) eq_refl)
    as [Hcreate [_ [_ [Hselect _]]]].
  split; [exact (Hselect [])|exact Hcreate].
Defined.

(** C2 as stated fails: a record constructed with its fields in another
    order than declared sends its INSERT columns in that other order. *)
Lemma insert_columns_follow_supplied_order :
  keys (fields Person) = ["first"; "last"]
  /\ create_table_sql false "Person" Person = "CREATE TABLE Person (first TEXT, last TEXT);"
  /\ select_sql Person [] = "SELECT first, last FROM Person ;"
  /\ ann = Model__init__ Person [("last", Atom (AStr "O'Brien")); ("first", Atom (AStr "Ann"))]
  /\ statement_of quoted ann
     = Ok "INSERT INTO Person (last, first) VALUES ('O''Brien', 'Ann');"
  /\ (exists values,
         presave_loop (fields (cls ann)) (field_dict ann) = Ok (["last"; "first"], values))
  /\ ["last"; "first"] <> keys (fields Person).
Proof.
  repeat split; try reflexivity.
  - eexists. reflexivity.
  - discriminate.
Qed.

(** ** Induction over classes and the fields that reference them *)

Section ModelInduction.
Variable P : model -> Prop.
Variable Q : field -> Prop.
Hypothesis P_class : forall n fs, Forall (fun kf => Q (snd kf)) fs -> P (ModelCls n fs).
Hypothesis Q_text : forall n u nl, Q (TextField n u nl).
Hypothesis Q_integer : forall n u nl, Q (IntegerField n u nl).
Hypothesis Q_real : forall n u nl, Q (RealField n u nl).
Hypothesis Q_primary : forall n a, Q (PrimaryKey n a).
Hypothesis Q_foreign : forall b n u nl, P b -> Q (ForeignKey b n u nl).

Lemma model_field_ind : forall m : model, P m.
Proof.
  fix IH 1. intros [n fs]. apply P_class.
  induction fs as [|[k f] rest IHrest]; constructor; [|exact IHrest].
  cbn [snd]. destruct f as [? ? ?|? ? ?|? ? ?|? ?|b ? ? ?]; auto.
Qed.
End ModelInduction.

(** ** Traces only grow *)

Lemma extends_refl {C : Type} (w : world C) : extends w w.
Proof. exists []. now rewrite app_nil_r. Qed.

Lemma extends_trans {C : Type} (w1 w2 w3 : world C) :
  extends w1 w2 -> extends w2 w3 -> extends w1 w3.
Proof.
  intros [e1 H1] [e2 H2]. exists (e1 ++ e2)%list. now rewrite H2, H1, app_assoc.
Qed.

Lemma extends_after_query {C : Type} (w : world C) sql c' :
  extends w (after_query w sql c').
Proof. eexists. reflexivity. Qed.

Section Growth.
Context {C : Type} {engine : Sqlite3 C}.

Lemma decode_row_extends (decode : string -> atom -> M C pyval) :
  (forall k v w, extends w (snd (decode k v w))) ->
  forall pairs acc w, extends w (snd (decode_row decode pairs acc w)).
Proof.
  intros Hd. induction pairs as [|[k v] rest IH]; intros acc w; simpl.
  - apply extends_refl.
  - unfold bind. pose proof (Hd k v w) as H.
    destruct (decode k v w) as [[a|e] w1]; simpl in H.
    + eapply extends_trans; [exact H|apply IH].
    + exact H.
Qed.

Lemma Model_get_extends_if (cls0 : model) :
  (forall k v w, extends w (snd (decode_column cls0 k v w))) ->
  forall kwargs (w : world C), extends w (snd (Model_get cls0 kwargs w)).
Proof.
  intros Hd kwargs w. rewrite Model_get_run.
  destruct (connection (db w)) as [c|]; [|apply extends_refl]. cbv zeta.
  destruct (fst (cursor_execute (select_sql cls0 kwargs) c)) as [[names rows]|e];
    [|apply extends_after_query].
  destruct (fetchone rows) as [[|x xs]|]; try apply extends_after_query.
  unfold bind.
  pose proof (decode_row_extends (decode_column cls0) Hd (combine names (x :: xs)) []
                (after_query w (select_sql cls0 kwargs)
                   (snd (cursor_execute (select_sql cls0 kwargs) c)))) as H.
  destruct (decode_row _ _ _ _) as [[qd|e] w1]; simpl in *;
    (eapply extends_trans; [apply extends_after_query|exact H]).
Qed.

Lemma Model_get_extends (cls0 : model) :
  forall kwargs (w : world C), extends w (snd (Model_get cls0 kwargs w)).
Proof.
  apply (model_field_ind
           (fun m => forall kwargs (w : world C), extends w (snd (Model_get m kwargs w)))
           (fun f => forall value (w : world C), extends w (snd (Field_get f value w))));
    try (intros; apply extends_refl).
  - intros n fs Hall. apply Model_get_extends_if.
    intros k v w. unfold decode_column. cbn [fields].
    destruct (dict_get fs k) as [f|] eqn:Hf; [|apply extends_refl].
    apply dict_get_In in Hf. rewrite Forall_forall in Hall.
    exact (Hall (k, f) Hf v w).
  - intros b n u nl IH value w. rewrite Field_get_ForeignKey. unfold bind.
    pose proof (IH [("id", value)] w) as H.
    destruct (Model_get b [("id", value)] w) as [[o|e] w1]; exact H.
Qed.

Lemma decode_column_extends (cls0 : model) k v (w : world C) :
  extends w (snd (decode_column cls0 k v w)).
Proof.
  unfold decode_column. destruct (dict_get (fields cls0) k) as [f|]; [|apply extends_refl].
  destruct f; try apply extends_refl.
  rewrite Field_get_ForeignKey. unfold bind.
  pose proof (Model_get_extends bind_model [("id", v)] w) as H.
  destruct (Model_get bind_model [("id", v)] w) as [[o|e] w1]; exact H.
Qed.
End Growth.

(** ** More on dictionaries *)

Lemma dict_set_keys {A : Type} (d : list (string * A)) k a k' :
  In k' (keys (dict_set d k a)) <-> In k' (keys d) \/ k' = k.
Proof.
  induction d as [|[k0 x] d IH]; simpl.
  - intuition.
  - destruct (String.eqb_spec k0 k) as [->|Hne]; simpl.
    + intuition.
    + rewrite IH. intuition.
Qed.

Lemma dict_set_NoDup {A : Type} (d : list (string * A)) k a :
  NoDup (keys d) -> NoDup (keys (dict_set d k a)).
Proof.
  induction d as [|[k0 x] d IH]; simpl; intro Hnd.
  - constructor; [tauto|constructor].
  - inversion Hnd as [|? ? Hk Hnd']; subst.
    destruct (String.eqb_spec k0 k) as [->|Hne]; simpl.
    + constructor; assumption.
    + constructor; [|auto]. rewrite dict_set_keys. intros [H|H]; [tauto|congruence].
Qed.

Lemma dict_of_items_loop {A : Type} :
  forall (items acc : list (string * A)),
    NoDup (keys items) ->
    (forall k, In k (keys acc) -> ~ In k (keys items)) ->
    fold_left (fun d kv => dict_set d (fst kv) (snd kv)) items acc = (acc ++ items)%list.
Proof.
  induction items as [|[k a] items IH]; intros acc Hnd Hacc; cbn [fold_left fst snd].
  - now rewrite app_nil_r.
  - inversion Hnd as [|? ? Hk Hnd']; subst.
    rewrite dict_set_fresh.
    + rewrite IH; [now rewrite <- app_assoc|exact Hnd'|].
      intros k0 Hin. unfold keys in Hin. rewrite map_app in Hin.
      apply in_app_or in Hin. destruct Hin as [Hin|[<-|[]]]; [|exact Hk].
      intro Hin'. apply (Hacc k0 Hin). now right.
    + intro Hin. apply (Hacc k Hin). now left.
Qed.

Lemma dict_of_items_NoDup {A : Type} (items : list (string * A)) :
  NoDup (keys items) -> dict_of_items items = items.
Proof.
  intro Hnd. unfold dict_of_items. rewrite dict_of_items_loop; auto.
Qed.

Lemma filter_keys_In {A : Type} (p : string * A -> bool) (d : list (string * A)) k :
  In k (keys (filter p d)) -> In k (keys d).
Proof.
  unfold keys. rewrite !in_map_iff. intros [x [Hx Hin]].
  apply filter_In in Hin. exists x. tauto.
Qed.

Lemma filter_keys_NoDup {A : Type} (p : string * A -> bool) (d : list (string * A)) :
  NoDup (keys d) -> NoDup (keys (filter p d)).
Proof.
  induction d as [|[k a] d IH]; simpl; intro Hnd; [constructor|].
  inversion Hnd as [|? ? Hk Hnd']; subst.
  destruct (p (k, a)); simpl; [|auto].
  constructor; [|auto]. intro H. apply Hk. now apply filter_keys_In in H.
Qed.

Lemma combine_keys_In {A : Type} (names : list string) (row : list A) k :
  In k (keys (combine names row)) -> In k names.
Proof.
  revert row. induction names as [|n names IH]; intros [|a row]; simpl; try tauto.
  intros [H|H]; [now left|right; eauto].
Qed.

Lemma combine_keys_NoDup {A : Type} (names : list string) (row : list A) :
  NoDup names -> NoDup (keys (combine names row)).
Proof.
  revert row. induction names as [|n names IH]; intros row Hnd; [constructor|].
  destruct row as [|a row]; [constructor|]. simpl.
  inversion Hnd as [|? ? Hn Hnd']; subst.
  constructor; [|auto]. intro H. apply Hn. now apply combine_keys_In in H.
Qed.

Lemma map_snd_keys {A B : Type} (g : A -> B) (d : list (string * A)) :
  keys (map (fun kv => (fst kv, g (snd kv))) d) = keys d.
Proof. unfold keys. rewrite map_map. now apply map_ext. Qed.

(** A stored pair of a key whose field accepts its value survives
    construction. *)
Lemma Model__init__keeps (cls0 : model) (kwargs : list (string * pyval)) k v f :
  NoDup (keys kwargs) ->
  In (k, v) kwargs ->
  dict_get (fields cls0) k = Some f ->
  validate f v = true ->
  dict_get (field_dict (Model__init__ cls0 kwargs)) k = Some v.
Proof.
  intros Hnd Hin Hf Hv. rewrite Model__init__field_dict by exact Hnd.
  apply dict_get_NoDup; [now apply filter_keys_NoDup|].
  apply filter_In. split; [exact Hin|]. unfold kept. simpl. now rewrite Hf.
Qed.

(** ** Raw rows and decoded rows *)

Lemma record_of_row_field_dict (cls0 : model) (column_names : list string)
    (query_result : list atom) :
  NoDup column_names ->
  field_dict (record_of_row cls0 column_names query_result)
  = filter (kept cls0)
      (map (fun kv => (fst kv, Atom (snd kv))) (combine column_names query_result)).
Proof.
  intro Hnd. unfold record_of_row, set_new. cbn [field_dict].
  assert (Hk : NoDup (keys (map (fun kv : string * atom => (fst kv, Atom (snd kv)))
                             (combine column_names query_result)))).
  { rewrite map_snd_keys. now apply combine_keys_NoDup. }
  rewrite dict_of_items_NoDup by exact Hk.
  now apply Model__init__field_dict.
Qed.

Lemma record_of_row_reads_raw {C : Type} (cls0 : model) (column_names : list string)
    (query_result : list atom) key value bind n u nl (w : world C) :
  NoDup column_names ->
  In (key, value) (combine column_names query_result) ->
  dict_get (fields cls0) key = Some (ForeignKey bind n u nl) ->
  Model__getattr__ (record_of_row cls0 column_names query_result) key w
  = (Ok (Atom value), w).
Proof.
  intros Hnd Hin Hf. unfold Model__getattr__, dict_mem.
  change (cls (record_of_row cls0 column_names query_result)) with cls0.
  rewrite Hf.
  assert (Hk : NoDup (keys (map (fun kv : string * atom => (fst kv, Atom (snd kv)))
                             (combine column_names query_result)))).
  { rewrite map_snd_keys. now apply combine_keys_NoDup. }
  unfold record_of_row, set_new. cbn [field_dict].
  rewrite dict_of_items_NoDup by exact Hk.
  rewrite (Model__init__keeps cls0 _ key (Atom value) (ForeignKey bind n u nl));
    [reflexivity|exact Hk| |exact Hf|reflexivity].
  apply (in_map (fun kv : string * atom => (fst kv, Atom (snd kv))) _ (key, value)).
  exact Hin.
Qed.

(** C5: [get_all] hands each fetched row to the constructor as it is, no
    field's [get] being applied and no further query made: reading a
    foreign-key field of such a record gives the stored id.  [get] passes
    every column of the row through its field's [get] before it constructs
    the record. *)
Theorem get_all_keeps_raw_values :
  forall (C : Type) (engine : Sqlite3 C) (cls0 : model) (kwargs : list (string * atom))
         (w : world C) (c c' : C) (column_names : list string)
         (row : list atom) (rows : list (list atom)),
    connection (db w) = Some c ->
    cursor_execute (select_sql cls0 kwargs) c = (Ok (column_names, row :: rows), c') ->
    NoDup column_names ->
    row <> [] ->
    let w1 := after_query w (select_sql cls0 kwargs) c' in
    Model_get_all cls0 kwargs w
    = (Ok (Some (map (record_of_row cls0 column_names) (row :: rows))), w1)
    /\ (forall query_result,
           field_dict (record_of_row cls0 column_names query_result)
           = filter (kept cls0)
               (map (fun kv => (fst kv, Atom (snd kv)))
                    (combine column_names query_result)))
    /\ (forall query_result key value bind n u nl (w2 : world C),
           In (key, value) (combine column_names query_result) ->
           dict_get (fields cls0) key = Some (ForeignKey bind n u nl) ->
           Model__getattr__ (record_of_row cls0 column_names query_result) key w2
           = (Ok (Atom value), w2))
    /\ Model_get cls0 kwargs w
       = (query_dict <- decode_row (decode_column cls0) (combine column_names row) [] ;;
          ret (Some (set_new (Model__init__ cls0 query_dict) false))) w1.
Proof.
  intros C engine cls0 kwargs w c c' column_names row rows Hc Hq Hnd Hrow w1.
  split; [|split; [|split]].
  - rewrite Model_get_all_run, Hc. cbv zeta. rewrite Hq. reflexivity.
  - intro query_result. now apply record_of_row_field_dict.
  - intros query_result key value bind n u nl w2 Hin Hf.
    now apply (record_of_row_reads_raw cls0 column_names query_result key value bind n u nl).
  - rewrite Model_get_run, Hc. cbv zeta. rewrite Hq. cbn [fst snd fetchone].
    destruct row as [|x xs]; [contradiction|reflexivity].
Qed.

Lemma get_all_keeps_raw_values_witness :
  (exists r,
      fst (Model_get_all (engine := scripted blog) Post [("id", AInt 1)] w0) = Ok (Some [r])
      /\ Model__getattr__ r "author" w0 = (Ok (Atom (AInt 7)), w0))
  /\ (exists r,
         fst (Model_get (engine := scripted blog) Post [("id", AInt 1)] w0) = Ok (Some r)
         /\ Model__getattr__ r "author" w0
            = (Ok (Obj (Instance User
                          [("id", Atom (AInt 7)); ("name", Atom (AStr "Ann"));
                           ("age", Atom (AInt 30))] false)), w0)).
Proof.
  destruct (get_all_keeps_raw_values unit (scripted blog) Post [("id", AInt 1)] w0 tt tt
              ["id"; "title"; "author"] [AInt 1; AStr "hello"; AInt 7] []
              eq_refl eq_refl
              ltac:(repeat constructor; simpl; intuition discriminate)
              ltac:(discriminate))
    as [Hall [_ [Hread Hget]]].
  split.
  - eexists. split; [rewrite Hall; reflexivity|].
    apply (Hread [AInt 1; AStr "hello"; AInt 7] "author" (AInt 7) User "author" false false);
      [simpl; auto|reflexivity].
  - eexists. split; [rewrite Hget; reflexivity|reflexivity].
Defined.

(** ** Foreign keys are resolved while the row is decoded *)

Section Decoding.
Context {C : Type} {engine : Sqlite3 C}.
Variable decode : string -> atom -> M C pyval.
Hypothesis decode_extends : forall k v w, extends w (snd (decode k v w)).

Lemma decode_row_keeps :
  forall pairs acc (w : world C) qd w',
    decode_row decode pairs acc w = (Ok qd, w') ->
    forall key, ~ In key (keys pairs) -> dict_get qd key = dict_get acc key.
Proof.
  induction pairs as [|[k v] rest IH]; intros acc w qd w' Hrun key Hkey; simpl in Hrun.
  - now injection Hrun as <- _.
  - unfold bind in Hrun. destruct (decode k v w) as [[a|e] w1]; [|discriminate].
    simpl in Hkey. rewrite (IH _ _ _ _ Hrun key) by tauto.
    apply dict_get_set_other. tauto.
Qed.

Lemma decode_row_NoDup :
  forall pairs acc (w : world C) qd w',
    decode_row decode pairs acc w = (Ok qd, w') ->
    NoDup (keys acc) -> NoDup (keys qd).
Proof.
  induction pairs as [|[k v] rest IH]; intros acc w qd w' Hrun Hnd; simpl in Hrun.
  - now injection Hrun as <- _.
  - unfold bind in Hrun. destruct (decode k v w) as [[a|e] w1]; [|discriminate].
    apply (IH _ _ _ _ Hrun). now apply dict_set_NoDup.
Qed.

(** Every pair of the row went through [decode], between the start and
    the end of the loop, and its result is what the dictionary holds. *)
Lemma decode_row_visits :
  forall pairs acc (w : world C) qd w',
    decode_row decode pairs acc w = (Ok qd, w') ->
    forall key value,
      In (key, value) pairs ->
      exists wa v wb,
        decode key value wa = (Ok v, wb)
        /\ extends w wa /\ extends wb w'
        /\ (NoDup (keys pairs) -> dict_get qd key = Some v).
Proof.
  induction pairs as [|[k v] rest IH]; intros acc w qd w' Hrun key value Hin;
    simpl in Hrun; [contradiction|].
  unfold bind in Hrun. pose proof (decode_extends k v w) as Hstep.
  destruct (decode k v w) as [[a|e] w1] eqn:Hd; [|discriminate]. simpl in Hstep.
  destruct Hin as [Heq|Hin].
  - injection Heq as -> ->. exists w, a, w1.
    split; [exact Hd|]. split; [apply extends_refl|]. split.
    + pose proof (decode_row_extends decode decode_extends rest (dict_set acc key a) w1) as H.
      now rewrite Hrun in H.
    + intro Hnd. simpl in Hnd. inversion Hnd as [|? ? Hk _]; subst.
      rewrite (decode_row_keeps _ _ _ _ _ Hrun key Hk). apply dict_get_set_same.
  - destruct (IH _ _ _ _ Hrun key value Hin) as [wa [v' [wb [Hdec [Ha [Hb Hst]]]]]].
    exists wa, v', wb. split; [exact Hdec|]. split; [|split; [exact Hb|]].
    + eapply extends_trans; [exact Hstep|exact Ha].
    + intro Hnd. simpl in Hnd. inversion Hnd; subst. auto.
Qed.
End Decoding.

Lemma Model_get_issues_select {C : Type} {engine : Sqlite3 C} (cls0 : model)
    (kwargs : list (string * atom)) (w w' : world C) (o : option record) :
  Model_get cls0 kwargs w = (Ok o, w') ->
  exists c', extends (after_query w (select_sql cls0 kwargs) c') w'.
Proof.
  rewrite Model_get_run. destruct (connection (db w)) as [c|]; [|discriminate]. cbv zeta.
  intro H. exists (snd (cursor_execute (select_sql cls0 kwargs) c)).
  destruct (fst (cursor_execute (select_sql cls0 kwargs) c)) as [[names rows]|e];
    [|discriminate].
  destruct (fetchone rows) as [[|x xs]|].
  - injection H as _ <-. apply extends_refl.
  - unfold bind in H.
    pose proof (decode_row_extends (decode_column cls0) (decode_column_extends cls0)
                  (combine names (x :: xs)) []
                  (after_query w (select_sql cls0 kwargs)
                     (snd (cursor_execute (select_sql cls0 kwargs) c)))) as Hext.
    destruct (decode_row _ _ _ _) as [[qd|e] w1]; [|discriminate].
    unfold ret in H. injection H as _ <-. exact Hext.
  - injection H as _ <-. apply extends_refl.
Qed.

(** C3, as the code has it: [get] resolves a foreign key while it builds
    the record from the fetched row -- it runs [get(id=stored value)] on
    the bound class before the constructor is called and stores what that
    returned.  Reading the field afterwards returns the stored value and
    performs no lookup, so two reads give the same value and leave the
    database untouched. *)
Theorem get_resolves_foreign_key_when_fetching :
  forall (C : Type) (engine : Sqlite3 C) (cls0 : model) (kwargs : list (string * atom))
         (w w' : world C) (c c' : C) (column_names : list string)
         (row : list atom) (rows : list (list atom))
         (key : string) (value : atom) (bind_model : model) (n : string) (u nl : bool)
         (r : record),
    connection (db w) = Some c ->
    cursor_execute (select_sql cls0 kwargs) c = (Ok (column_names, row :: rows), c') ->
    NoDup column_names ->
    In (key, value) (combine column_names row) ->
    dict_get (fields cls0) key = Some (ForeignKey bind_model n u nl) ->
    Model_get cls0 kwargs w = (Ok (Some r), w') ->
    exists wa bind_obj wb,
      let stored := match bind_obj with Some o => Obj o | None => Atom ANone end in
      Model_get bind_model [("id", value)] wa = (Ok bind_obj, wb)
      /\ extends (after_query w (select_sql cls0 kwargs) c') wa
      /\ extends wb w'
      /\ (exists before after,
             trace w'
             = (trace w ++ before
                  ++ [CursorExecute (select_sql bind_model [("id", value)])]
                  ++ after)%list)
      /\ Model__getitem__ r key = stored
      /\ forall w2 : world C,
           Model__getattr__ r key w2 = (Ok stored, w2)
           /\ (a <- Model__getattr__ r key ;; b <- Model__getattr__ r key ;; ret (a, b)) w2
              = (Ok (stored, stored), w2).
Proof.
  intros C engine cls0 kwargs w w' c c' column_names row rows key value bind_model n u nl r
         Hc Hq Hnd Hin Hf Hget.
  rewrite Model_get_run, Hc in Hget. cbv zeta in Hget. rewrite Hq in Hget.
  cbn [fst snd fetchone] in Hget.
  destruct row as [|x xs]; [destruct column_names; contradiction|].
  unfold bind in Hget.
  destruct (decode_row (decode_column cls0) (combine column_names (x :: xs)) []
              (after_query w (select_sql cls0 kwargs) c')) as [[qd|e] w1] eqn:Hrow;
    [|discriminate].
  unfold ret in Hget. injection Hget as <- <-.
  destruct (decode_row_visits (decode_column cls0) (decode_column_extends cls0)
              _ _ _ _ _ Hrow key value Hin) as [wa [v [wb [Hdec [Ha [Hb Hst]]]]]].
  unfold decode_column in Hdec. rewrite Hf, Field_get_ForeignKey in Hdec.
  unfold bind in Hdec.
  destruct (Model_get bind_model [("id", value)] wa) as [[bind_obj|e] wb'] eqn:Hbind;
    [|discriminate].
  unfold ret in Hdec. injection Hdec as <- <-.
  exists wa, bind_obj, wb'. cbv zeta.
  assert (Hstored : dict_get (field_dict (Model__init__ cls0 qd)) key
                    = Some (match bind_obj with Some o => Obj o | None => Atom ANone end)).
  { apply (Model__init__keeps cls0 qd key _ (ForeignKey bind_model n u nl)).
    - apply (decode_row_NoDup (decode_column cls0) _ _ _ _ _ Hrow). constructor.
    - apply dict_get_In. apply Hst. now apply combine_keys_NoDup.
    - exact Hf.
    - reflexivity. }
  assert (Hread : forall w2 : world C,
             Model__getattr__ (set_new (Model__init__ cls0 qd) false) key w2
             = (Ok (match bind_obj with Some o => Obj o | None => Atom ANone end), w2)).
  { intro w2. unfold Model__getattr__, dict_mem, set_new. cbn [cls field_dict].
    change (cls (Model__init__ cls0 qd)) with cls0.
    rewrite Hf, Hstored. reflexivity. }
  split; [exact Hbind|]. split; [exact Ha|]. split; [exact Hb|]. split; [|split].
  - destruct (Model_get_issues_select _ _ _ _ _ Hbind) as [c2 [e2 H2]].
    destruct Ha as [e1 H1]. destruct Hb as [e3 H3].
    unfold after_query in H1, H2. cbn [trace] in H1, H2.
    exists ([Log "DEBUG" (select_sql cls0 kwargs); CursorExecute (select_sql cls0 kwargs)]
              ++ e1 ++ [Log "DEBUG" (select_sql bind_model [("id", value)])])%list.
    exists (e2 ++ e3)%list.
    rewrite H3, H2, H1. rewrite <- !app_assoc. reflexivity.
  - unfold Model__getitem__, set_new. cbn [field_dict]. now rewrite Hstored.
  - intro w2. split; [apply Hread|].
    unfold bind. rewrite !Hread. reflexivity.
Qed.

Lemma get_resolves_foreign_key_when_fetching_witness :
  exists r w',
    Model_get (engine := scripted blog) Post [("id", AInt 1)] w0 = (Ok (Some r), w')
    /\ Model__getitem__ r "author"
       = Obj (Instance User
                [("id", Atom (AInt 7)); ("name", Atom (AStr "Ann")); ("age", Atom (AInt 30))]
                false)
    /\ exists before after,
        trace w' = (trace w0 ++ before
                      ++ [CursorExecute (select_sql User [("id", AInt 7)])] ++ after)%list.
Proof.
  eexists. eexists. split; [vm_compute; reflexivity|]. split; [reflexivity|].
  destruct (get_resolves_foreign_key_when_fetching unit (scripted blog) Post
              [("id", AInt 1)] w0 _ tt tt ["id"; "title"; "author"]
              [AInt 1; AStr "hello"; AInt 7] [] "author" (AInt 7) User "author" false false _
              eq_refl eq_refl
              ltac:(repeat constructor; simpl; intuition discriminate)
              ltac:(simpl; auto) eq_refl eq_refl)
    as [wa [bind_obj [wb [_ [_ [_ [Htrace _]]]]]]].
  exact Htrace.
Defined.

(** C3 as stated fails: fetching a post through [get] queries the User
    table before the record exists, and reading the field twice afterwards
    queries nothing. *)
Lemma get_looks_up_foreign_key_eagerly :
  exists r w',
    Model_get (engine := scripted blog) Post [("id", AInt 1)] w0 = (Ok (Some r), w')
    /\ calls (trace w')
       = [CursorExecute (select_sql Post [("id", AInt 1)]);
          CursorExecute (select_sql User [("id", AInt 7)])]
    /\ exists author,
        (a <- Model__getattr__ r "author" ;; b <- Model__getattr__ r "author" ;; ret (a, b)) w'
        = (Ok (Obj author, Obj author), w')
        /\ cls author = User.
Proof.
  eexists. eexists. split; [vm_compute; reflexivity|]. split; [reflexivity|].
  eexists. split; reflexivity.
Qed.

(** * Further properties *)

(** ** What presave does before and after the engine is reached *)

Lemma as_strs_not_all_str (l : list pyval) :
  forallb is_str l = false -> as_strs l = Raise TypeError.
Proof.
  induction l as [|[[| | |s]|] l IH]; simpl; try discriminate; try reflexivity.
  intro H. now rewrite (IH H).
Qed.

Lemma presave_loop_In (fs : list (string * field)) :
  forall (items : list (string * pyval)) names values k v,
    presave_loop fs items = Ok (names, values) ->
    In (k, v) items ->
    exists f prepared,
      dict_get fs k = Some f /\ prepare f v = Ok prepared /\ In prepared values.
Proof.
  induction items as [|[k0 v0] items IH]; intros names values k v Hloop Hin;
    simpl in Hloop; [contradiction|].
  destruct (dict_get fs k0) as [f|] eqn:Hf; [|discriminate].
  destruct (prepare f v0) as [p|] eqn:Hp; [|discriminate].
  destruct (presave_loop fs items) as [[ns vs]|] eqn:Hrest; [|discriminate].
  injection Hloop as <- <-. destruct Hin as [Heq|Hin].
  - injection Heq as <- <-. exists f, p. simpl. auto.
  - destruct (IH ns vs k v eq_refl Hin) as [f' [p' [H1 [H2 H3]]]].
    exists f', p'. simpl. auto.
Qed.

Lemma presave_loop_raises (fs : list (string * field)) :
  forall (items : list (string * pyval)) k v f e0,
    In (k, v) items ->
    dict_get fs k = Some f ->
    prepare f v = Raise e0 ->
    exists e, presave_loop fs items = Raise e.
Proof.
  intros items k v f e0 Hin Hf Hp.
  destruct (presave_loop fs items) as [[names values]|e] eqn:Hloop; [|now exists e].
  destruct (presave_loop_In fs items names values k v Hloop Hin) as [f' [p [H1 [H2 _]]]].
  congruence.
Qed.

Lemma forallb_false_In (l : list pyval) v :
  In v l -> is_str v = false -> forallb is_str l = false.
Proof.
  induction l as [|x l IH]; simpl; [contradiction|].
  intros [->|Hin] Hv; [now rewrite Hv|]. rewrite (IH Hin Hv). apply andb_false_r.
Qed.

Section BeforeTheEngine.
Context {C : Type} {engine : Sqlite3 C}.
Variable repr_str : string -> string.

(** When no statement can be built, nothing is logged, sent or
    committed. *)
Lemma presave_raises_before_sending (self : record) (e : exn) (w : world C) :
  statement_of repr_str self = Raise e ->
  Model_presave repr_str self w = (Raise e, w)
  /\ Model_save repr_str self w = (Raise e, w).
Proof.
  intro H.
  assert (Hpre : Model_presave repr_str self w = (Raise e, w))
    by now rewrite Model_presave_run, H.
  split; [exact Hpre|]. unfold Model_save, bind. now rewrite Hpre.
Qed.
End BeforeTheEngine.

(** X1: a new record that holds a value other than a string in an
    integer, real or primary-key field cannot be inserted: [presave], and
    with it [save], raises before anything is logged, sent or committed;
    when every field prepares, the exception is the [TypeError] of
    [", ".join(field_values)]. *)
Theorem insert_of_non_string_value_raises :
  forall (C : Type) (engine : Sqlite3 C) (repr_str : string -> string)
         (self : record) (k : string) (v : pyval) (f : field) (w : world C),
    _new self = true ->
    In (k, v) (field_dict self) ->
    dict_get (fields (cls self)) k = Some f ->
    is_plain_field f = true ->
    is_str v = false ->
    exists e,
      Model_presave repr_str self w = (Raise e, w)
      /\ Model_save repr_str self w = (Raise e, w)
      /\ (forall names values,
             presave_loop (fields (cls self)) (field_dict self) = Ok (names, values) ->
             e = TypeError).
Proof.
  intros C engine repr_str self k v f w Hnew Hin Hf Hplain Hv.
  assert (Hst : exists e,
             statement_of repr_str self = Raise e
             /\ (forall names values,
                    presave_loop (fields (cls self)) (field_dict self) = Ok (names, values) ->
                    e = TypeError)).
  { unfold statement_of.
    destruct (presave_loop (fields (cls self)) (field_dict self))
      as [[names values]|e] eqn:Hloop.
    - exists TypeError. split; [|reflexivity].
      destruct (presave_loop_In _ _ _ _ k v Hloop Hin) as [f' [p [H1 [H2 H3]]]].
      assert (f' = f) as -> by congruence.
      assert (p = v) as ->.
      { destruct f; try discriminate; simpl in H2; congruence. }
      unfold presave_sql, join_values. rewrite Hnew.
      now rewrite (as_strs_not_all_str values (forallb_false_In values v H3 Hv)).
    - exists e. split; [reflexivity|]. intros names values H. discriminate. }
  destruct Hst as [e [Hst He]]. exists e.
  destruct (presave_raises_before_sending repr_str self e w Hst) as [H1 H2].
  auto.
Qed.

Lemma insert_of_non_string_value_raises_witness :
  let ann30 := Model__init__ User [("name", Atom (AStr "Ann")); ("age", Atom (AInt 30))] in
  Model_save (engine := scripted blog) quoted ann30 w0 = (Raise TypeError, w0).
Proof.
  intro ann30.
  destruct (insert_of_non_string_value_raises unit (scripted blog) quoted ann30
              "age" (Atom (AInt 30)) (IntegerField "age" false true) w0
              eq_refl ltac:(simpl; auto) eq_refl eq_refl eq_refl)
    as [e [_ [Hsave He]]].
  rewrite Hsave. now rewrite (He _ _ eq_refl).
Defined.

(** X2: on a schema of text fields only, every constructed record builds
    its INSERT: the kept names in supplied order, and for each the text
    between quotes with its quotes doubled. *)
Theorem text_record_builds_insert :
  forall (repr_str : string -> string) (cls0 : model) (kwargs : list (string * pyval)),
    forallb (fun kf => is_TextField (snd kf)) (fields cls0) = true ->
    NoDup (keys kwargs) ->
    exists texts : list (string * string),
      field_dict (Model__init__ cls0 kwargs)
      = map (fun ks => (fst ks, Atom (AStr (snd ks)))) texts
      /\ statement_of repr_str (Model__init__ cls0 kwargs)
         = Ok ("INSERT INTO " ++ _name cls0 ++ " (" ++ join ", " (map fst texts)
                 ++ ") VALUES ("
                 ++ join ", " (map (fun ks => doubled_quotes (snd ks)) texts) ++ ");").
Proof.
  intros repr_str cls0 kwargs Htext Hnd.
  assert (Hloop : forall items : list (string * pyval),
             (forall kv, In kv items -> kept cls0 kv = true) ->
             exists texts : list (string * string),
               items = map (fun ks => (fst ks, Atom (AStr (snd ks)))) texts
               /\ presave_loop (fields cls0) items
                  = Ok (map fst texts,
                        map (fun ks => Atom (AStr (doubled_quotes (snd ks)))) texts)).
  { induction items as [|[k v] items IH]; intro Hk.
    - exists []. split; reflexivity.
    - destruct IH as [texts [-> Hrest]]; [intros kv Hin; apply Hk; now right|].
      pose proof (Hk (k, v) (or_introl eq_refl)) as Hkv. unfold kept in Hkv. simpl in Hkv.
      destruct (dict_get (fields cls0) k) as [f|] eqn:Hf; [|discriminate].
      rewrite forallb_forall in Htext.
      pose proof (Htext (k, f) (dict_get_In _ _ _ Hf)) as Hft. simpl in Hft.
      destruct f; try discriminate. simpl in Hkv.
      destruct v as [[| | |s]|]; try discriminate.
      exists ((k, s) :: texts). split; [reflexivity|].
      cbn [presave_loop map fst snd]. rewrite Hf, Hrest.
      unfold prepare, doubled_quotes. now rewrite replace_quotes. }
  destruct (Hloop (filter (kept cls0) kwargs)) as [texts [Hfd Hpre]].
  { intros kv Hin. now apply filter_In in Hin. }
  exists texts. rewrite (Model__init__field_dict _ _ Hnd). split; [exact Hfd|].
  unfold statement_of. change (cls (Model__init__ cls0 kwargs)) with cls0.
  rewrite (Model__init__field_dict _ _ Hnd), Hpre.
  unfold presave_sql. change (_new (Model__init__ cls0 kwargs)) with true. cbv iota.
  change (cls (Model__init__ cls0 kwargs)) with cls0.
  assert (Hjoin : forall l : list (string * string),
             as_strs (map (fun ks => Atom (AStr (doubled_quotes (snd ks)))) l)
             = Ok (map (fun ks => doubled_quotes (snd ks)) l)).
  { induction l as [|x l IHl]; simpl; [reflexivity|now rewrite IHl]. }
  unfold join_values. now rewrite Hjoin.
Qed.

Lemma text_record_builds_insert_witness :
  exists texts : list (string * string),
    field_dict ann = map (fun ks => (fst ks, Atom (AStr (snd ks)))) texts
    /\ statement_of quoted ann
       = Ok ("INSERT INTO Person (" ++ join ", " (map fst texts) ++ ") VALUES ("
               ++ join ", " (map (fun ks => doubled_quotes (snd ks)) texts) ++ ");").
Proof.
  exact (text_record_builds_insert quoted Person
           [("last", Atom (AStr "O'Brien")); ("first", Atom (AStr "Ann"))]
           eq_refl ltac:(repeat constructor; simpl; intuition discriminate)).
Defined.

(** X3: an error of the engine other than an integrity error is not
    caught: [save] raises it, after the statement was logged and sent,
    and neither logs an error nor commits. *)
Theorem save_propagates_other_errors :
  forall (C : Type) (engine : Sqlite3 C) (repr_str : string -> string)
         (self : record) (w : world C) (c c' : C) (sql : string) (e : exn),
    connection (db w) = Some c ->
    statement_of repr_str self = Ok sql ->
    connection_execute sql c = (Raise e, c') ->
    (forall msg, e <> IntegrityError msg) ->
    Model_save repr_str self w
    = (Raise e,
       mkWorld (mkDatabase (db_name (db w)) (models (db w)) (Some c'))
               (trace w ++ [Log "DEBUG" sql; ConnExecute sql])).
Proof.
  intros C engine repr_str self w c c' sql e Hc Hsql Hex Hne.
  unfold Model_save, bind.
  rewrite Model_presave_run, Hsql, Database_execute_run, Hc, Hex. cbn [fst snd].
  destruct e; try reflexivity. exfalso. now apply (Hne msg).
Qed.

Lemma save_propagates_other_errors_witness :
  fst (Model_save (engine := scripted broken) quoted ann w0)
  = Raise (DatabaseError "no such table: Person")
  /\ calls (trace (snd (Model_save (engine := scripted broken) quoted ann w0)))
     = [ConnExecute "INSERT INTO Person (last, first) VALUES ('O''Brien', 'Ann');"].
Proof.
  rewrite (save_propagates_other_errors unit (scripted broken) quoted ann w0 tt tt
             "INSERT INTO Person (last, first) VALUES ('O''Brien', 'Ann');"
             (DatabaseError "no such table: Person")
             eq_refl eq_refl eq_refl ltac:(intros msg H; discriminate)).
  split; reflexivity.
Defined.

(** X4: a record that [get_all] built from a row with a foreign-key
    column holds the raw id there, which [ForeignKey.prepare] cannot
    render: saving such a record raises before anything is logged, sent
    or committed. *)
Theorem record_from_get_all_with_foreign_key_cannot_be_saved :
  forall (C : Type) (engine : Sqlite3 C) (repr_str : string -> string)
         (cls0 : model) (column_names : list string) (query_result : list atom)
         (key : string) (value : atom) (bind_model : model) (n : string) (u nl : bool)
         (w : world C),
    NoDup column_names ->
    In (key, value) (combine column_names query_result) ->
    dict_get (fields cls0) key = Some (ForeignKey bind_model n u nl) ->
    exists e,
      Model_presave repr_str (record_of_row cls0 column_names query_result) w = (Raise e, w)
      /\ Model_save repr_str (record_of_row cls0 column_names query_result) w = (Raise e, w).
Proof.
  intros C engine repr_str cls0 column_names query_result key value bind_model n u nl w
         Hnd Hin Hf.
  assert (Hst : exists e,
             statement_of repr_str (record_of_row cls0 column_names query_result) = Raise e).
  { unfold statement_of.
    change (cls (record_of_row cls0 column_names query_result)) with cls0.
    destruct (presave_loop_raises (fields cls0)
                (field_dict (record_of_row cls0 column_names query_result))
                key (Atom value) (ForeignKey bind_model n u nl) TypeError)
      as [e He]; [|exact Hf|reflexivity|].
    - rewrite (record_of_row_field_dict _ _ _ Hnd). apply filter_In. split.
      + apply (in_map (fun kv : string * atom => (fst kv, Atom (snd kv))) _ (key, value)).
        exact Hin.
      + unfold kept. simpl. now rewrite Hf.
    - exists e. now rewrite He. }
  destruct Hst as [e Hst]. exists e.
  now apply presave_raises_before_sending.
Qed.

Lemma record_from_get_all_with_foreign_key_cannot_be_saved_witness :
  exists e,
    Model_save (engine := scripted blog) quoted
      (record_of_row Post ["id"; "title"; "author"] [AInt 1; AStr "hello"; AInt 7]) w0
    = (Raise e, w0).
Proof.
  destruct (record_from_get_all_with_foreign_key_cannot_be_saved unit (scripted blog) quoted
              Post ["id"; "title"; "author"] [AInt 1; AStr "hello"; AInt 7]
              "author" (AInt 7) User "author" false false w0
              ltac:(repeat constructor; simpl; intuition discriminate)
              ltac:(simpl; auto) eq_refl) as [e [_ H]].
  exists e. exact H.
Defined.

Lemma keys_In_value {A : Type} (d : list (string * A)) (k : string) :
  In k (keys d) -> exists a, In (k, a) d.
Proof.
  unfold keys. rewrite in_map_iff. intros [[k' a] [Hk Hin]]. simpl in Hk. subst.
  now exists a.
Qed.

Lemma presave_loop_undeclared_last (fs : list (string * field)) (key : string) (v : pyval) :
  dict_get fs key = None ->
  forall items names values,
    presave_loop fs items = Ok (names, values) ->
    presave_loop fs (items ++ [(key, v)]) = Raise (KeyError key).
Proof.
  intros Hkey. induction items as [|[k0 v0] items IH]; intros names values Hloop; simpl.
  - now rewrite Hkey.
  - simpl in Hloop.
    destruct (dict_get fs k0) as [f|]; [|discriminate].
    destruct (prepare f v0) as [p|]; [|discriminate].
    destruct (presave_loop fs items) as [[ns vs]|] eqn:Hrest; [|discriminate].
    now rewrite (IH ns vs eq_refl).
Qed.

(** X5: item assignment stores any key.  On a record that could be saved,
    assigning to a name that is no declared field makes [presave] and
    [save] raise [KeyError] for that name, with nothing logged, sent or
    committed. *)
Theorem setitem_of_undeclared_name_breaks_save :
  forall (C : Type) (engine : Sqlite3 C) (repr_str : string -> string)
         (self : record) (key : string) (v : pyval) (w : world C)
         (names : list string) (values : list pyval),
    presave_loop (fields (cls self)) (field_dict self) = Ok (names, values) ->
    dict_get (fields (cls self)) key = None ->
    Model__getitem__ (Model__setitem__ self key v) key = v
    /\ Model_presave repr_str (Model__setitem__ self key v) w = (Raise (KeyError key), w)
    /\ Model_save repr_str (Model__setitem__ self key v) w = (Raise (KeyError key), w).
Proof.
  intros C engine repr_str self key v w names values Hloop Hkey.
  split.
  - unfold Model__getitem__, Model__setitem__. cbn [field_dict].
    now rewrite dict_get_set_same.
  - apply presave_raises_before_sending.
    unfold statement_of, Model__setitem__. cbn [cls field_dict].
    rewrite dict_set_fresh.
    + now rewrite (presave_loop_undeclared_last _ key v Hkey _ names values Hloop).
    + intro Hin. apply keys_In_value in Hin. destruct Hin as [v' Hin].
      destruct (presave_loop_In _ _ _ _ key v' Hloop Hin) as [f [p [H1 _]]].
      congruence.
Qed.

Lemma setitem_of_undeclared_name_breaks_save_witness :
  Model_save (engine := scripted blog) quoted
    (Model__setitem__ ann "nickname" (Atom (AStr "Annie"))) w0
  = (Raise (KeyError "nickname"), w0).
Proof.
  exact (proj2 (proj2
    (setitem_of_undeclared_name_breaks_save unit (scripted blog) quoted ann "nickname"
       (Atom (AStr "Annie")) w0 _ _ eq_refl eq_refl))).
Defined.

(** ** Text literals *)

Lemma read_sql_text_replace (s : string) :
  read_sql_text (replace "'"%char "''" s ++ "'") = Some s.
Proof.
  induction s as [|c s IH]; [reflexivity|].
  cbn [replace]. destruct (Ascii.eqb c "'"%char) eqn:Hc.
  - apply Ascii.eqb_eq in Hc. subst c.
    change (("''" ++ replace "'"%char "''" s) ++ "'")
      with (String "'"%char (String "'"%char (replace "'"%char "''" s ++ "'"))).
    cbn [read_sql_text]. rewrite Ascii.eqb_refl, IH. reflexivity.
  - change (String c (replace "'"%char "''" s) ++ "'")
      with (String c (replace "'"%char "''" s ++ "'")).
    cbn [read_sql_text]. rewrite Hc, IH. reflexivity.
Qed.

(** X6: the literal [TextField.prepare] writes for a string, read the way
    SQL reads a string literal, is that string again: the text ends where
    the literal ends, whatever quotes it contains.  Hence different texts
    get different literals. *)
Theorem text_literal_reads_back :
  forall (n : string) (u nl : bool) (s : string),
    (exists literal,
        prepare (TextField n u nl) (Atom (AStr s)) = Ok (Atom (AStr literal))
        /\ read_sql_literal literal = Some s)
    /\ (forall s',
           prepare (TextField n u nl) (Atom (AStr s))
           = prepare (TextField n u nl) (Atom (AStr s')) ->
           s = s').
Proof.
  intros n u nl s.
  assert (Hread : forall t, read_sql_literal ("'" ++ replace "'"%char "''" t ++ "'") = Some t).
  { intro t. change ("'" ++ replace "'"%char "''" t ++ "'")
      with (String "'"%char (replace "'"%char "''" t ++ "'")).
    cbn [read_sql_literal]. rewrite Ascii.eqb_refl. apply read_sql_text_replace. }
  split.
  - eexists. split; [reflexivity|]. apply Hread.
  - intros s' H. cbn [prepare] in H. injection H as H.
    pose proof (Hread s) as H1. rewrite H, Hread in H1. congruence.
Qed.

(** ** Opening the database *)





(** ** Declaring classes *)

Lemma collect_fields_NoDup (namespace : list (string * attribute)) :
  NoDup (keys (collect_fields namespace)).
Proof.
  unfold collect_fields.
  assert (H : forall ns (acc : list (string * field)),
             NoDup (keys acc) ->
             NoDup (keys (fold_left
                            (fun fields item =>
                               match snd item with
                               | FieldAttr field_obj => dict_set fields (fst item) field_obj
                               | OtherAttr => fields
                               end) ns acc))).
  { induction ns as [|[k [f|]] ns IH]; intros acc Hacc; cbn [fold_left fst snd].
    - exact Hacc.
    - apply IH. now apply dict_set_NoDup.
    - now apply IH. }
  apply H. constructor.
Qed.

Lemma keys_map_values {A B : Type} (h : string * A -> B) (d : list (string * A)) :
  keys (map (fun kf => (fst kf, h kf)) d) = keys d.
Proof. unfold keys. rewrite map_map. now apply map_ext. Qed.

Lemma dict_set_keys_present {A : Type} (d : list (string * A)) k a :
  In k (keys d) -> keys (dict_set d k a) = keys d.
Proof.
  induction d as [|[k0 x] d IH]; simpl; [contradiction|].
  destruct (String.eqb_spec k0 k) as [->|Hne]; [reflexivity|].
  intros [H|H]; [contradiction|]. simpl. now rewrite IH.
Qed.

(** X9: declaring a class while a database is set registers it under its
    name -- in place when the name is registered already, at the end
    otherwise -- and leaves every other registration alone.  The class
    carries its name, its field names are distinct, and every field
    carries the name it was declared under. *)
Theorem class_declaration_registers :
  forall (C : Type) (engine : Sqlite3 C) (class_name : string)
         (namespace : list (string * attribute)) (d : database C),
    class_name <> "Model" ->
    exists m,
      ModelClass__new__ class_name namespace (Some d)
      = Ok (m, Some (mkDatabase (db_name d) (dict_set (models d) class_name m)
                                (connection d)))
      /\ _name m = class_name
      /\ NoDup (keys (fields m))
      /\ Forall (fun kf => name (snd kf) = fst kf) (fields m)
      /\ dict_get (dict_set (models d) class_name m) class_name = Some m
      /\ (forall other,
             other <> class_name ->
             dict_get (dict_set (models d) class_name m) other = dict_get (models d) other)
      /\ (~ In class_name (keys (models d)) ->
          dict_set (models d) class_name m = (models d ++ [(class_name, m)])%list)
      /\ (In class_name (keys (models d)) ->
          keys (dict_set (models d) class_name m) = keys (models d)).
Proof.
  intros C engine class_name namespace d Hname.
  eexists. split.
  - unfold ModelClass__new__.
    destruct (String.eqb_spec class_name "Model") as [E|_]; [contradiction|].
    cbn [negb Database_call]. reflexivity.
  - split; [reflexivity|]. cbn [fields]. split; [|split; [|split; [|split; [|split]]]].
    + rewrite (keys_map_values (fun kf => set_name (snd kf) (fst kf))).
      apply collect_fields_NoDup.
    + apply Forall_forall. intros kf Hin. apply in_map_iff in Hin.
      destruct Hin as [[k f] [<- _]]. apply name_set_name.
    + apply dict_get_set_same.
    + intros other Hne. apply dict_get_set_other. congruence.
    + apply dict_set_fresh.
    + apply dict_set_keys_present.
Qed.

Lemma class_declaration_registers_witness :
  exists m,
    ModelClass__new__ (engine := scripted blog) "Person" Person_namespace (Some (db w0))
    = Ok (m, Some (mkDatabase "test.db" (dict_set (models (db w0)) "Person" m) (Some tt)))
    /\ _name m = "Person".
Proof.
  destruct (class_declaration_registers unit (scripted blog) "Person" Person_namespace
              (db w0) ltac:(discriminate)) as [m [H1 [H2 _]]].
  exists m. split; [exact H1|exact H2].
Defined.

(** X10: declaring a class before any database was set raises the
    "Database not set" error of the accessor; only the base class, named
    Model, is built without one, and it is not registered. *)
Theorem class_declaration_needs_a_database :
  forall (C : Type) (engine : Sqlite3 C) (class_name : string)
         (namespace : list (string * attribute)),
    class_name <> "Model" ->
    ModelClass__new__ class_name namespace (None : option (database C))
    = Raise (Exception
        "Database not set. Please, set the database name before defining the models")
    /\ forall instance : option (database C),
         exists m, ModelClass__new__ "Model" namespace instance = Ok (m, instance).
Proof.
  intros C engine class_name namespace Hname. split.
  - unfold ModelClass__new__.
    destruct (String.eqb_spec class_name "Model") as [E|_]; [contradiction|].
    reflexivity.
  - intro instance. eexists. reflexivity.
Qed.

Lemma class_declaration_needs_a_database_witness :
  ModelClass__new__ (engine := scripted blog) "Person" Person_namespace None
  = Raise (Exception
      "Database not set. Please, set the database name before defining the models").
Proof.
  exact (proj1 (class_declaration_needs_a_database unit (scripted blog) "Person"
                  Person_namespace ltac:(discriminate))).
Defined.

(** X11: after a class is declared under a name not registered before,
    an [init] that returns has created the tables of the classes
    registered earlier, in their order, then the table of the new class,
    and committed last. *)
Theorem declared_class_is_created_last :
  forall (C : Type) (engine : Sqlite3 C) (class_name : string)
         (namespace : list (string * attribute)) (d d' : database C) (m : model)
         (not_exists : bool) (t : list event) (w' : world C),
    class_name <> "Model" ->
    ~ In class_name (keys (models d)) ->
    ModelClass__new__ class_name namespace (Some d) = Ok (m, Some d') ->
    Database_init not_exists (mkWorld d' t) = (Ok tt, w') ->
    calls (trace w')
    = (calls t
         ++ map (fun nm => ConnExecute (create_table_sql not_exists (fst nm) (snd nm)))
                (models d)
         ++ [ConnExecute (create_table_sql not_exists class_name m); ConnCommit])%list.
Proof.
  intros C engine class_name namespace d d' m not_exists t w' Hname Hfresh Hnew Hinit.
  unfold ModelClass__new__ in Hnew.
  destruct (String.eqb_spec class_name "Model") as [E|_]; [contradiction|].
  cbn [negb Database_call] in Hnew. injection Hnew as <- <-.
  pose proof (Database_init_calls not_exists _ _ _ Hinit) as H. cbn zeta in H.
  cbn [db models trace] in H. rewrite H.
  rewrite (dict_set_fresh _ _ _ Hfresh), map_app. cbn [map fst snd].
  now rewrite <- !app_assoc.
Qed.

Lemma declared_class_is_created_last_witness :
  exists w',
    Database_init (engine := scripted blog) false
      (mkWorld (mkDatabase "test.db" [("User", User); ("Post", Post); ("Person", Person)]
                  (Some tt)) [])
    = (Ok tt, w')
    /\ calls (trace w')
       = [ConnExecute (create_table_sql false "User" User);
          ConnExecute (create_table_sql false "Post" Post);
          ConnExecute (create_table_sql false "Person" Person);
          ConnCommit].
Proof.
  eexists. split; [vm_compute; reflexivity|].
  exact (declared_class_is_created_last unit (scripted blog) "Person" Person_namespace
           (db w0) _ Person false [] _
           ltac:(discriminate) ltac:(simpl; intuition discriminate) eq_refl eq_refl).
Defined.

(** ** Queries only read *)

Lemma only_reads_refl {C : Type} (w : world C) : only_reads w w.
Proof. exists []. rewrite app_nil_r. auto. Qed.

Lemma only_reads_trans {C : Type} (w1 w2 w3 : world C) :
  only_reads w1 w2 -> only_reads w2 w3 -> only_reads w1 w3.
Proof.
  intros [e1 [H1 [R1 [N1 M1]]]] [e2 [H2 [R2 [N2 M2]]]].
  exists (e1 ++ e2)%list. rewrite H2, H1, app_assoc, forallb_app, R1, R2.
  repeat split; congruence.
Qed.

Lemma only_reads_after_query {C : Type} (w : world C) sql c' :
  only_reads w (after_query w sql c').
Proof. eexists. repeat split. Qed.

Section ReadOnly.
Context {C : Type} {engine : Sqlite3 C}.

Lemma decode_row_only_reads (decode : string -> atom -> M C pyval) :
  (forall k v w, only_reads w (snd (decode k v w))) ->
  forall pairs acc w, only_reads w (snd (decode_row decode pairs acc w)).
Proof.
  intros Hd. induction pairs as [|[k v] rest IH]; intros acc w; simpl.
  - apply only_reads_refl.
  - unfold bind. pose proof (Hd k v w) as H.
    destruct (decode k v w) as [[a|e] w1]; simpl in H.
    + eapply only_reads_trans; [exact H|apply IH].
    + exact H.
Qed.

Lemma Model_get_only_reads_if (cls0 : model) :
  (forall k v w, only_reads w (snd (decode_column cls0 k v w))) ->
  forall kwargs (w : world C), only_reads w (snd (Model_get cls0 kwargs w)).
Proof.
  intros Hd kwargs w. rewrite Model_get_run.
  destruct (connection (db w)) as [c|]; [|apply only_reads_refl]. cbv zeta.
  destruct (fst (cursor_execute (select_sql cls0 kwargs) c)) as [[names rows]|e];
    [|apply only_reads_after_query].
  destruct (fetchone rows) as [[|x xs]|]; try apply only_reads_after_query.
  unfold bind.
  pose proof (decode_row_only_reads (decode_column cls0) Hd (combine names (x :: xs)) []
                (after_query w (select_sql cls0 kwargs)
                   (snd (cursor_execute (select_sql cls0 kwargs) c)))) as H.
  destruct (decode_row _ _ _ _) as [[qd|e] w1]; simpl in *;
    (eapply only_reads_trans; [apply only_reads_after_query|exact H]).
Qed.

Lemma Model_get_only_reads (cls0 : model) :
  forall kwargs (w : world C), only_reads w (snd (Model_get cls0 kwargs w)).
Proof.
  apply (model_field_ind
           (fun m => forall kwargs (w : world C), only_reads w (snd (Model_get m kwargs w)))
           (fun f => forall value (w : world C), only_reads w (snd (Field_get f value w))));
    try (intros; apply only_reads_refl).
  - intros n fs Hall. apply Model_get_only_reads_if.
    intros k v w. unfold decode_column. cbn [fields].
    destruct (dict_get fs k) as [f|] eqn:Hf; [|apply only_reads_refl].
    apply dict_get_In in Hf. rewrite Forall_forall in Hall.
    exact (Hall (k, f) Hf v w).
  - intros b n u nl IH value w. rewrite Field_get_ForeignKey. unfold bind.
    pose proof (IH [("id", value)] w) as H.
    destruct (Model_get b [("id", value)] w) as [[o|e] w1]; exact H.
Qed.
End ReadOnly.

(** X12: [get], with all the lookups its foreign keys trigger, and
    [get_all] only log and query: whatever they return or raise, they send
    no statement through [Database.execute], never commit, and leave the
    database's name and registry as they were. *)
Theorem queries_only_read :
  forall (C : Type) (engine : Sqlite3 C) (cls0 : model) (kwargs : list (string * atom))
         (w : world C),
    only_reads w (snd (Model_get cls0 kwargs w))
    /\ only_reads w (snd (Model_get_all cls0 kwargs w)).
Proof.
  intros C engine cls0 kwargs w. split; [apply Model_get_only_reads|].
  rewrite Model_get_all_run.
  destruct (connection (db w)) as [c|]; [|apply only_reads_refl]. cbv zeta.
  destruct (fst (cursor_execute (select_sql cls0 kwargs) c)) as [[names [|row rows]]|e];
    apply only_reads_after_query.
Qed.

(** ** Fetching, then saving *)

Lemma Model_get_result {C : Type} {engine : Sqlite3 C} (cls0 : model)
    (kwargs : list (string * atom)) (w w' : world C) (r : record) :
  Model_get cls0 kwargs w = (Ok (Some r), w') ->
  exists query_dict, r = set_new (Model__init__ cls0 query_dict) false.
Proof.
  rewrite Model_get_run. destruct (connection (db w)) as [c|]; [|discriminate]. cbv zeta.
  destruct (fst (cursor_execute (select_sql cls0 kwargs) c)) as [[names rows]|e];
    [|discriminate].
  destruct (fetchone rows) as [[|x xs]|]; try discriminate.
  unfold bind. destruct (decode_row _ _ _ _) as [[qd|e] w1]; [|discriminate].
  unfold ret. intro H. injection H as <- _. now exists qd.
Qed.

(** X13: a record returned by [get] is not new and belongs to the class
    it was fetched from; a [save] of it that returns has sent one UPDATE
    of that class's table, keyed by the record's id, and then
    committed. *)
Theorem fetched_record_saves_as_update :
  forall (C : Type) (engine : Sqlite3 C) (repr_str : string -> string)
         (cls0 : model) (kwargs : list (string * atom)) (w w1 w2 : world C) (r : record),
    Model_get cls0 kwargs w = (Ok (Some r), w1) ->
    Model_save repr_str r w1 = (Ok tt, w2) ->
    _new r = false
    /\ cls r = cls0
    /\ exists sets id,
        format_d (Model__getitem__ r "id") = Ok id
        /\ calls (trace w2)
           = (calls (trace w1)
                ++ [ConnExecute ("UPDATE " ++ _name cls0 ++ " SET " ++ sets
                                   ++ " WHERE id=" ++ id ++ ";");
                    ConnCommit])%list.
Proof.
  intros C engine repr_str cls0 kwargs w w1 w2 r Hget Hsave.
  apply Model_get_result in Hget. destruct Hget as [qd ->].
  split; [reflexivity|]. split; [reflexivity|].
  apply Model_save_returns in Hsave. destruct Hsave as [sql [Hsql Hcalls]].
  apply statement_of_shape in Hsql. cbn [_new set_new] in Hsql.
  destruct Hsql as [sets [id [Hid ->]]]. exists sets, id. split; [exact Hid|exact Hcalls].
Qed.

Lemma fetched_record_saves_as_update_witness :
  let r := Instance Post
             [("id", Atom (AInt 1)); ("title", Atom (AStr "hello"));
              ("author", Obj (Instance User
                                [("id", Atom (AInt 7)); ("name", Atom (AStr "Ann"));
                                 ("age", Atom (AInt 30))] false))] false in
  let w1 := snd (Model_get (engine := scripted blog) Post [("id", AInt 1)] w0) in
  let w2 := snd (Model_save (engine := scripted blog) quoted r w1) in
  fst (Model_get (engine := scripted blog) Post [("id", AInt 1)] w0) = Ok (Some r)
  /\ exists sets,
      calls (trace w2)
      = (calls (trace w1)
           ++ [ConnExecute ("UPDATE Post SET " ++ sets ++ " WHERE id=1;"); ConnCommit])%list.
Proof.
  intros r w1 w2. split; [reflexivity|].
  destruct (fetched_record_saves_as_update unit (scripted blog) quoted Post
              [("id", AInt 1)] w0 w1 w2 r eq_refl eq_refl)
    as [_ [_ [sets [id [Hid Hc]]]]].
  vm_compute in Hid. injection Hid as <-.
  exists sets. exact Hc.
Defined.

(** ** Foreign keys, there and back *)

Lemma Model_get_row {C : Type} {engine : Sqlite3 C} (cls0 : model)
    (kwargs : list (string * atom)) (w w' : world C) (c c' : C)
    (names : list string) (x : atom) (xs : list atom) (rows : list (list atom))
    (o : option record) :
  connection (db w) = Some c ->
  cursor_execute (select_sql cls0 kwargs) c = (Ok (names, (x :: xs) :: rows), c') ->
  Model_get cls0 kwargs w = (Ok o, w') ->
  exists query_dict,
    decode_row (decode_column cls0) (combine names (x :: xs)) []
      (after_query w (select_sql cls0 kwargs) c') = (Ok query_dict, w')
    /\ o = Some (set_new (Model__init__ cls0 query_dict) false).
Proof.
  intros Hc Hq. rewrite Model_get_run, Hc. cbv zeta. rewrite Hq.
  cbn [fst snd fetchone]. unfold bind.
  destruct (decode_row _ _ _ _) as [[qd|e] w1]; [|discriminate].
  unfold ret. intro H. injection H as <- <-. now exists qd.
Qed.

(** X14: when the row of the bound class is found and its id column,
    an integer or primary-key field, holds the id asked for, the record a
    foreign key decodes to encodes back to that id. *)
Theorem foreign_key_round_trip :
  forall (C : Type) (engine : Sqlite3 C) (bind_model : model) (n : string) (u nl : bool)
         (z : Z) (w w' : world C) (c c' : C) (names : list string) (row : list atom)
         (rows : list (list atom)) (f : field) (v : pyval),
    connection (db w) = Some c ->
    cursor_execute (select_sql bind_model [("id", AInt z)]) c
    = (Ok (names, row :: rows), c') ->
    NoDup names ->
    In ("id", AInt z) (combine names row) ->
    dict_get (fields bind_model) "id" = Some f ->
    is_plain_field f = true ->
    Field_get (ForeignKey bind_model n u nl) (AInt z) w = (Ok v, w') ->
    exists r,
      v = Obj r
      /\ cls r = bind_model
      /\ _new r = false
      /\ Model__getitem__ r "id" = Atom (AInt z)
      /\ prepare (ForeignKey bind_model n u nl) v = Ok (Atom (AStr (str_int z))).
Proof.
  intros C engine bind_model n u nl z w w' c c' names row rows f v
         Hc Hq Hnd Hin Hf Hplain Hget.
  rewrite Field_get_ForeignKey in Hget. unfold bind in Hget.
  destruct (Model_get bind_model [("id", AInt z)] w) as [[o|e] w1] eqn:Hm; [|discriminate].
  unfold ret in Hget. injection Hget as <- <-.
  destruct row as [|x xs]; [destruct names; contradiction|].
  destruct (Model_get_row _ _ _ _ _ _ _ _ _ _ _ Hc Hq Hm) as [qd [Hrow ->]].
  destruct (decode_row_visits (decode_column bind_model) (decode_column_extends bind_model)
              _ _ _ _ _ Hrow "id" (AInt z) Hin) as [wa [v' [wb [Hdec [_ [_ Hst]]]]]].
  unfold decode_column in Hdec. rewrite Hf in Hdec.
  rewrite Field_get_other in Hdec by (destruct f; try discriminate; exact I).
  unfold ret in Hdec. injection Hdec as <- _.
  assert (Hid : dict_get (field_dict (Model__init__ bind_model qd)) "id"
                = Some (Atom (AInt z))).
  { apply (Model__init__keeps bind_model qd "id" _ f).
    - apply (decode_row_NoDup (decode_column bind_model) _ _ _ _ _ Hrow). constructor.
    - apply dict_get_In. apply Hst. now apply combine_keys_NoDup.
    - exact Hf.
    - destruct f; try discriminate; reflexivity. }
  eexists. split; [reflexivity|]. split; [reflexivity|]. split; [reflexivity|].
  assert (Hitem : Model__getitem__ (set_new (Model__init__ bind_model qd) false) "id"
                  = Atom (AInt z)).
  { unfold Model__getitem__, set_new. cbn [field_dict]. now rewrite Hid. }
  split; [exact Hitem|]. cbn [prepare]. now rewrite Hitem.
Qed.

Lemma foreign_key_round_trip_witness :
  exists v,
    fst (Field_get (engine := scripted blog) (ForeignKey User "author" false false)
           (AInt 7) w0) = Ok v
    /\ prepare (ForeignKey User "author" false false) v = Ok (Atom (AStr "7")).
Proof.
  eexists. split; [vm_compute; reflexivity|].
  destruct (foreign_key_round_trip unit (scripted blog) User "author" false false 7 w0
              _ tt tt ["id"; "name"; "age"] [AInt 7; AStr "Ann"; AInt 30] []
              (PrimaryKey "id" true) _
              eq_refl eq_refl
              ltac:(repeat constructor; simpl; intuition discriminate)
              ltac:(simpl; auto) eq_refl eq_refl eq_refl) as [r [_ [_ [_ [_ H]]]]].
  exact H.
Defined.

(** X15: when no row of the bound class has the stored id, the foreign
    key decodes to [None] after its one query, and [None] cannot be
    encoded again: [ForeignKey.prepare] raises [TypeError]. *)
Theorem missing_foreign_row_decodes_to_None :
  forall (C : Type) (engine : Sqlite3 C) (bind_model : model) (n : string) (u nl : bool)
         (value : atom) (w : world C) (c c' : C) (names : list string),
    connection (db w) = Some c ->
    cursor_execute (select_sql bind_model [("id", value)]) c = (Ok (names, []), c') ->
    Field_get (ForeignKey bind_model n u nl) value w
    = (Ok (Atom ANone), after_query w (select_sql bind_model [("id", value)]) c')
    /\ prepare (ForeignKey bind_model n u nl) (Atom ANone) = Raise TypeError.
Proof.
  intros C engine bind_model n u nl value w c c' names Hc Hq. split; [|reflexivity].
  rewrite Field_get_ForeignKey. unfold bind.
  rewrite Model_get_run, Hc. cbv zeta. rewrite Hq. reflexivity.
Qed.

Lemma missing_foreign_row_decodes_to_None_witness :
  fst (Field_get (engine := scripted blog) (ForeignKey User "author" false false)
         (AInt 8) w0) = Ok (Atom ANone).
Proof.
  rewrite (proj1 (missing_foreign_row_decodes_to_None unit (scripted blog) User "author"
                    false false (AInt 8) w0 tt tt [] eq_refl eq_refl)).
  reflexivity.
Defined.

(** ** Reading what construction kept *)

Lemma dict_get_None_keys {A : Type} (d : list (string * A)) k :
  ~ In k (keys d) -> dict_get d k = None.
Proof.
  induction d as [|[k0 x] d IH]; simpl; [reflexivity|]. intro H.
  destruct (String.eqb_spec k0 k) as [->|]; [tauto|]. apply IH. tauto.
Qed.

Lemma dict_get_filter {A : Type} (p : string * A -> bool) (d : list (string * A)) k :
  NoDup (keys d) ->
  dict_get (filter p d) k
  = match dict_get d k with
    | Some a => if p (k, a) then Some a else None
    | None => None
    end.
Proof.
  induction d as [|[k0 a] d IH]; intro Hnd; [reflexivity|].
  inversion Hnd as [|? ? Hk Hnd']; subst. cbn [filter dict_get].
  destruct (String.eqb_spec k0 k) as [->|Hne].
  - destruct (p (k, a)); cbn [dict_get].
    + now rewrite String.eqb_refl.
    + apply dict_get_None_keys. intro H. apply Hk. now apply filter_keys_In in H.
  - rewrite <- (IH Hnd'). destruct (p (k0, a)); cbn [dict_get]; [|reflexivity].
    destruct (String.eqb_spec k0 k); [contradiction|reflexivity].
Qed.



(** X17: in a record [get_all] builds from a row, a text column is kept
    only when the fetched value is a string: a NULL or a number fetched
    for a text field is dropped by the constructor, and the field reads
    as [None]. *)
Theorem fetched_text_column_kept_only_if_string :
  forall (C : Type) (cls0 : model) (column_names : list string) (query_result : list atom)
         (key : string) (value : atom) (n : string) (u nl : bool) (w : world C),
    NoDup column_names ->
    In (key, value) (combine column_names query_result) ->
    dict_get (fields cls0) key = Some (TextField n u nl) ->
    dict_get (field_dict (record_of_row cls0 column_names query_result)) key
    = (if is_str (Atom value) then Some (Atom value) else None)
    /\ Model__getattr__ (record_of_row cls0 column_names query_result) key w
       = (Ok (if is_str (Atom value) then Atom value else Atom ANone), w).
Proof.
  intros C cls0 column_names query_result key value n u nl w Hnd Hin Hf.
  assert (Hk : NoDup (keys (map (fun kv : string * atom => (fst kv, Atom (snd kv)))
                             (combine column_names query_result)))).
  { rewrite map_snd_keys. now apply combine_keys_NoDup. }
  assert (Hraw : dict_get (map (fun kv : string * atom => (fst kv, Atom (snd kv)))
                             (combine column_names query_result)) key
                 = Some (Atom value)).
  { apply dict_get_NoDup; [exact Hk|].
    apply (in_map (fun kv : string * atom => (fst kv, Atom (snd kv))) _ (key, value)).
    exact Hin. }
  assert (Hfd : dict_get (field_dict (record_of_row cls0 column_names query_result)) key
                = (if is_str (Atom value) then Some (Atom value) else None)).
  { rewrite (record_of_row_field_dict _ _ _ Hnd), (dict_get_filter _ _ _ Hk), Hraw.
    unfold kept. cbn [fst snd]. rewrite Hf. destruct value; reflexivity. }
  split; [exact Hfd|].
  unfold Model__getattr__, dict_mem.
  change (cls (record_of_row cls0 column_names query_result)) with cls0.
  rewrite Hf, Hfd. now destruct (is_str (Atom value)).
Qed.

Lemma fetched_text_column_kept_only_if_string_witness :
  Model__getattr__ (record_of_row User ["id"; "name"; "age"] [AInt 7; ANone; AInt 30])
    "name" w0
  = (Ok (Atom ANone), w0).
Proof.
  exact (proj2 (fetched_text_column_kept_only_if_string unit User ["id"; "name"; "age"]
                  [AInt 7; ANone; AInt 30] "name" ANone "name" false true w0
                  ltac:(repeat constructor; simpl; intuition discriminate)
                  ltac:(simpl; auto) eq_refl)).
Defined.

(** ** Saving and initialising, step by step *)

(** X18: when the statement is built and the engine executes it, [save]
    logs and sends the statement, logs and sends the commit, and its
    outcome is the outcome of the commit: it returns when the commit
    returns, and an exception of the commit, an integrity error included,
    reaches the caller, the [try] of [presave] being over by then. *)
Theorem save_outcome_is_commit_outcome :
  forall (C : Type) (engine : Sqlite3 C) (repr_str : string -> string)
         (self : record) (w : world C) (c c' c'' : C) (sql : string) (r : result unit),
    connection (db w) = Some c ->
    statement_of repr_str self = Ok sql ->
    connection_execute sql c = (Ok tt, c') ->
    connection_commit c' = (r, c'') ->
    Model_save repr_str self w
    = (r,
       mkWorld (mkDatabase (db_name (db w)) (models (db w)) (Some c''))
               (trace w ++ [Log "DEBUG" sql; ConnExecute sql;
                            Log "DEBUG" ("Commiting db " ++ db_name (db w));
                            ConnCommit])).
Proof.
  intros C engine repr_str self w c c' c'' sql r Hc Hsql Hex Hcommit.
  unfold Model_save, Model_commit, bind.
  rewrite Model_presave_run, Hsql, Database_execute_run, Hc, Hex. cbn [fst snd].
  rewrite Database_commit_run. cbn [db connection db_name models trace].
  rewrite Hcommit. cbn [fst snd]. now rewrite <- app_assoc.
Qed.

Lemma save_outcome_is_commit_outcome_witness :
  fst (Model_save (engine := scripted blog) quoted ann w0) = Ok tt
  /\ calls (trace (snd (Model_save (engine := scripted blog) quoted ann w0)))
     = [ConnExecute "INSERT INTO Person (last, first) VALUES ('O''Brien', 'Ann');";
        ConnCommit].
Proof.
  rewrite (save_outcome_is_commit_outcome unit (scripted blog) quoted ann w0 tt tt tt
             "INSERT INTO Person (last, first) VALUES ('O''Brien', 'Ann');" (Ok tt)
             eq_refl eq_refl eq_refl eq_refl).
  split; reflexivity.
Defined.

Lemma init_loop_app {C : Type} {engine : Sqlite3 C} (not_exists : bool)
    (pre post : list (string * model)) (w : world C) :
  init_loop not_exists (pre ++ post) w
  = match init_loop not_exists pre w with
    | (Ok _, w1) => init_loop not_exists post w1
    | (Raise e, w1) => (Raise e, w1)
    end.
Proof.
  revert w. induction pre as [|[n m] pre IH]; intro w; [reflexivity|].
  cbn [app init_loop]. unfold bind.
  destruct (Database_execute (create_table_sql not_exists n m) w) as [[u|e] w1];
    [apply IH|reflexivity].
Qed.

(** X19: [init] stops at the first CREATE TABLE the engine refuses: the
    exception, whatever its kind, reaches the caller, the tables of the
    classes registered after it are not attempted, and nothing is
    committed. *)
Theorem init_stops_at_first_failure :
  forall (C : Type) (engine : Sqlite3 C) (not_exists : bool) (w w1 : world C)
         (pre post : list (string * model)) (model_name : string) (model_obj : model)
         (c c' : C) (e : exn),
    models (db w) = (pre ++ (model_name, model_obj) :: post)%list ->
    init_loop not_exists pre w = (Ok tt, w1) ->
    connection (db w1) = Some c ->
    connection_execute (create_table_sql not_exists model_name model_obj) c
    = (Raise e, c') ->
    exists w',
      Database_init not_exists w = (Raise e, w')
      /\ calls (trace w')
         = (calls (trace w)
              ++ map (fun nm => ConnExecute (create_table_sql not_exists (fst nm) (snd nm)))
                     pre
              ++ [ConnExecute (create_table_sql not_exists model_name model_obj)])%list.
Proof.
  intros C engine not_exists w w1 pre post model_name model_obj c c' e
         Hmodels Hpre Hc Hex.
  unfold Database_init, bind. rewrite Hmodels, init_loop_app, Hpre.
  cbn [init_loop]. unfold bind. rewrite Database_execute_run, Hc, Hex. cbn [fst snd].
  eexists. split; [reflexivity|]. cbn [trace].
  rewrite calls_app. cbn [calls filter is_call].
  pose proof (init_loop_calls not_exists pre w (Ok tt) w1 Hpre) as [_ H].
  cbn zeta in H. rewrite H. now rewrite <- app_assoc.
Qed.

Lemma init_stops_at_first_failure_witness :
  exists w',
    Database_init (engine := scripted broken) false w0
    = (Raise (DatabaseError "no such table: Person"), w')
    /\ calls (trace w') = [ConnExecute (create_table_sql false "User" User)].
Proof.
  destruct (init_stops_at_first_failure unit (scripted broken) false w0 w0
              [] [("Post", Post)] "User" User tt tt
              (DatabaseError "no such table: Person")
              eq_refl eq_refl eq_refl eq_refl) as [w' [H1 H2]].
  exists w'. split; [exact H1|exact H2].
Defined.
